(** * Notification gateway (app.py): a shallow embedding and its properties

    The server of [app.py] is a Flask application with four JSON routes
    that read a Firestore collection ([usuarios_registrados]) and submit
    messages through Firebase Cloud Messaging.  The handlers are embedded
    here as programs of a small monad that threads the log of the calls
    made to the two collaborators and propagates Python exceptions; the
    collaborators themselves (the document store and the messaging
    backend) are interfaces whose answers are supplied by a [World].
    The start-up of the Firebase client ([initialize_firebase]) is
    embedded apart, over the platform calls it makes.  The banner and
    health routes (a timestamp each) are not part of the embedding. *)

From Stdlib Require Import ZArith SpecFloat.
From stdpp Require Import base option list gmap strings pretty.

Set Warnings "-register-all".
Local Open Scope string_scope.
Local Open Scope list_scope.

(** ** Python values

    What [request.get_json()] and [DocumentSnapshot.to_dict()] hand to the
    handlers: [None], booleans, integers, IEEE 754 floats, strings, lists
    and dictionaries with string keys. *)

Inductive pyval : Type :=
| PNone
| PBool (b : bool)
| PInt (z : Z)
| PFloat (f : spec_float)
| PStr (s : string)
| PList (l : list pyval)
| PDict (d : gmap string pyval).

(** Python's truth value testing, as used by [not x], [if x] and [bool(x)]. *)
Definition truthy (v : pyval) : bool :=
  match v with
  | PNone => false
  | PBool b => b
  | PInt z => negb (z =? 0)%Z
  | PFloat f => match f with S754_zero _ => false | _ => true end
  | PStr s => match s with EmptyString => false | String _ _ => true end
  | PList l => match l with [] => false | _ :: _ => true end
  | PDict d => match map_to_list d with [] => false | _ :: _ => true end
  end.

(** [type(v).__name__], which appears in the text of the exceptions below. *)
Definition type_name (v : pyval) : string :=
  match v with
  | PNone => "NoneType"
  | PBool _ => "bool"
  | PInt _ => "int"
  | PFloat _ => "float"
  | PStr _ => "str"
  | PList _ => "list"
  | PDict _ => "dict"
  end.

(** ** Exceptions and results *)

(** An exception is kept as its class name and the text [str(e)] gives. *)
Record exn : Type := Exn { exn_class : string; exn_str : string }.

Inductive result (A : Type) : Type :=
| Ok (a : A)
| Raise (e : exn).
Arguments Ok {A} a.
Arguments Raise {A} e.

Definition AttributeError (v : pyval) (attr : string) : exn :=
  Exn "AttributeError"
      ("'" +:+ type_name v +:+ "' object has no attribute '" +:+ attr +:+ "'").

Definition KeyError (k : string) : exn :=
  Exn "KeyError" ("'" +:+ k +:+ "'").

Definition TypeError_not_a_mapping (v : pyval) : exn :=
  Exn "TypeError" ("'" +:+ type_name v +:+ "' object is not a mapping").

(** ** The messaging backend's data (firebase_admin.messaging) *)

Record Notification : Type :=
  { n_title : pyval; n_body : pyval }.

Record AndroidNotification : Type :=
  { an_sound : string; an_channel_id : pyval }.

Record AndroidConfig : Type :=
  { ac_priority : string; ac_notification : AndroidNotification }.

Record Aps : Type :=
  { aps_sound : string; aps_badge : Z }.

Record APNSConfig : Type :=
  { apns_payload_aps : Aps }.

(** [messaging.Message]: the handlers set either [token] or [topic]. *)
Record Message : Type :=
  { msg_notification : Notification;
    msg_data : pyval;
    msg_token : option pyval;
    msg_topic : option pyval;
    msg_android : option AndroidConfig;
    msg_apns : option APNSConfig }.

(** [messaging.MulticastMessage]. *)
Record MulticastMessage : Type :=
  { mm_notification : Notification;
    mm_data : pyval;
    mm_tokens : list pyval }.

(** [messaging.BatchResponse], of which the handler reads the two counts. *)
Record BatchResponse : Type :=
  { success_count : Z; failure_count : Z }.

(** ** The document store's data (firebase_admin.firestore) *)

(** A snapshot yielded by [stream()]: [user.id] and [user.to_dict()]. *)
Record DocumentSnapshot : Type :=
  { snap_id : string; to_dict : gmap string pyval }.

(** ** The log of collaborator calls

    Every call that leaves the process is logged with its arguments and
    with what it answered (a value or an exception). *)

Inductive event : Type :=
| DocumentGet (collection : string) (document_id : pyval)
              (answer : result (option (gmap string pyval)))
| StreamWhere (collection field op : string) (value : pyval)
              (answer : result (list DocumentSnapshot))
| Stream (collection : string) (answer : result (list DocumentSnapshot))
| Send (message : Message) (answer : result string)
| SendMulticast (message : MulticastMessage) (answer : result BatchResponse).

(** The User Directory: [db.collection(c).document(id).get()], whose
    answer is [None] when [user_doc.exists] is false and the document's
    fields otherwise; [db.collection(c).where(f, op, v).stream()]; and
    [db.collection(c).stream()].  Each answer may depend on everything
    that happened before, and each call may raise. *)
Record Directory : Type :=
  { dir_document_get :
      list event → string → pyval → result (option (gmap string pyval));
    dir_stream_where :
      list event → string → string → string → pyval →
      result (list DocumentSnapshot);
    dir_stream : list event → string → result (list DocumentSnapshot) }.

(** Push Delivery (firebase_admin.messaging): the calls [messaging.send]
    and [messaging.send_multicast], and the constructor
    [messaging.MulticastMessage], which checks its arguments inside the
    process and may raise before anything is submitted:
    [dlv_multicast_message_raises] is the exception it raises for a
    notification, a data value and a list of tokens, if it raises. *)
Record Delivery : Type :=
  { dlv_send : list event → Message → result string;
    dlv_send_multicast : list event → MulticastMessage → result BatchResponse;
    dlv_multicast_message_raises :
      Notification → pyval → list pyval → option exn }.

Record World : Type :=
  { directory : Directory; delivery : Delivery }.

(** ** The handler monad: a log of calls and exceptions *)

Definition M (A : Type) : Type :=
  World → list event → list event * result A.

#[export] Instance M_ret : MRet M := λ A a _ h, (h, Ok a).

#[export] Instance M_bind : MBind M := λ A B f m w h,
  match m w h with
  | (h', Ok a) => f a w h'
  | (h', Raise e) => (h', Raise e)
  end.

Definition raise {A : Type} (e : exn) : M A := λ _ h, (h, Raise e).

(** [try: m  except Exception as e: handler e]. *)
Definition try_except {A : Type} (m : M A) (handler : exn → M A) : M A :=
  λ w h,
    match m w h with
    | (h', Ok a) => (h', Ok a)
    | (h', Raise e) => handler e w h'
    end.

Definition lift_result {A : Type} (r : result A) : M A := λ _ h, (h, r).

Definition document_get (collection : string) (document_id : pyval)
  : M (option (gmap string pyval)) :=
  λ w h,
    let answer := dir_document_get (directory w) h collection document_id in
    (h ++ [DocumentGet collection document_id answer], answer).

Definition stream_where (collection field op : string) (value : pyval)
  : M (list DocumentSnapshot) :=
  λ w h,
    let answer := dir_stream_where (directory w) h collection field op value in
    (h ++ [StreamWhere collection field op value answer], answer).

Definition stream (collection : string) : M (list DocumentSnapshot) :=
  λ w h,
    let answer := dir_stream (directory w) h collection in
    (h ++ [Stream collection answer], answer).

Definition send (message : Message) : M string :=
  λ w h,
    let answer := dlv_send (delivery w) h message in
    (h ++ [Send message answer], answer).

Definition send_multicast (message : MulticastMessage) : M BatchResponse :=
  λ w h,
    let answer := dlv_send_multicast (delivery w) h message in
    (h ++ [SendMulticast message answer], answer).

(** [messaging.MulticastMessage(notification=..., data=..., tokens=...)]:
    the message, or the exception of the constructor; no call leaves the
    process, so nothing is logged. *)
Definition new_multicast_message (notification : Notification)
    (data : pyval) (tokens : list pyval) : M MulticastMessage :=
  λ w h,
    match dlv_multicast_message_raises (delivery w) notification data tokens
    with
    | Some e => (h, Raise e)
    | None =>
        (h, Ok {| mm_notification := notification;
                  mm_data := data;
                  mm_tokens := tokens |})
    end.

(** ** Python operations the handlers use *)

(** [data.get(key, default)]: an [AttributeError] unless [data] is a dict. *)
Definition py_get (data : pyval) (key : string) (dflt : pyval) : M pyval :=
  match data with
  | PDict d => mret (default dflt (d !! key))
  | _ => raise (AttributeError data "get")
  end.

(** [user_data.get(key)] on the dictionary [to_dict()] returns. *)
Definition dict_get (d : gmap string pyval) (key : string) : pyval :=
  default PNone (d !! key).

(** [data[key]]: the value of a key of a dict, a [KeyError] for a key
    the dict lacks, a [TypeError] for a value that is no dict (the
    handlers subscript only dicts they built or have tested). *)
Definition py_getitem (data : pyval) (key : string) : M pyval :=
  match data with
  | PDict d =>
      match d !! key with
      | Some v => mret v
      | None => raise (KeyError key)
      end
  | _ => raise (Exn "TypeError"
                  ("'" +:+ type_name data +:+ "' object is not subscriptable"))
  end.

(** [{**notification_data, key: value}]. *)
Definition py_unpack_with (notification_data : pyval) (key : string)
    (value : pyval) : M pyval :=
  match notification_data with
  | PDict d => mret (PDict (<[key := value]> d))
  | _ => raise (TypeError_not_a_mapping notification_data)
  end.

(** [range(0, stop, step)] for a positive step, unrolled at most [stop]
    times. *)
Fixpoint py_range_from (fuel i stop step : nat) : list nat :=
  match fuel with
  | O => []
  | S fuel' =>
      if decide (i < stop)%nat
      then i :: py_range_from fuel' (i + step)%nat stop step
      else []
  end.

Definition py_range (stop step : nat) : list nat :=
  py_range_from stop 0%nat stop step.

(** [tokens[i:j]] for [0 <= i <= j]. *)
Definition py_slice {A : Type} (l : list A) (i j : nat) : list A :=
  take (j - i)%nat (drop i l).

(** ** HTTP responses *)

Record Response : Type :=
  { status : Z; json : gmap string pyval }.

(** [jsonify({...})], with Flask's default status, and
    [jsonify({...}), code]. *)
Definition jsonify (fields : list (string * pyval)) : Response :=
  {| status := 200; json := list_to_map fields |}.

Definition jsonify_status (fields : list (string * pyval)) (code : Z)
  : Response :=
  {| status := code; json := list_to_map fields |}.

(** A request, as far as the handlers look at it: what
    [request.get_json()] does. *)
Record Request : Type :=
  { get_json : result pyval }.

(** [for x in l: s = body s x], the loop state [s] standing for the
    variables the body assigns. *)
Fixpoint for_each {A S : Type} (l : list A) (s : S) (body : S → A → M S)
  : M S :=
  match l with
  | [] => mret s
  | x :: l' => s' ← body s x; for_each l' s' body
  end.

(** ** The handlers *)

Module App.

Definition usuarios_registrados : string := "usuarios_registrados".

(** The [except Exception as e] clauses of the three sending routes and
    of the listing route. *)
Definition error_send_to_user (e : exn) : Response :=
  jsonify_status
    [("error", PStr "Error al enviar notificación");
     ("details", PStr (exn_str e))] 500.

Definition error_500 (e : exn) : Response :=
  jsonify_status [("error", PStr (exn_str e))] 500.

(** [POST /api/notifications/send-to-user].  The [print] calls of the
    source write to the process's standard output only and are left out. *)
Definition send_to_user (request : Request) : M Response :=
  try_except
    (data ← lift_result (get_json request);
     missing ←
       (userId ← py_get data "userId" PNone;
        if negb (truthy userId) then mret true else
        title ← py_get data "title" PNone;
        if negb (truthy title) then mret true else
        body ← py_get data "body" PNone;
        mret (negb (truthy body)));
     if (missing : bool) then
       mret (jsonify_status
               [("error", PStr "Faltan datos requeridos");
                ("required", PList [PStr "userId"; PStr "title"; PStr "body"])]
               400)
     else
       user_id ← py_getitem data "userId";
       title ← py_getitem data "title";
       body ← py_getitem data "body";
       notification_data ← py_get data "data" (PDict ∅);
       channel_id ← py_get data "channelId" (PStr "general_channel");
       user_doc ← document_get usuarios_registrados user_id;
       match user_doc with
       | None =>
           mret (jsonify_status
                   [("error", PStr "Usuario no encontrado");
                    ("userId", user_id)] 404)
       | Some user_data =>
           let fcm_token := dict_get user_data "fcmToken" in
           if negb (truthy fcm_token) then
             mret (jsonify_status
                     [("error", PStr "El usuario no tiene un token FCM");
                      ("userId", user_id)] 400)
           else
             message_data ← py_unpack_with notification_data "channelId" channel_id;
             let message :=
               {| msg_notification := {| n_title := title; n_body := body |};
                  msg_data := message_data;
                  msg_token := Some fcm_token;
                  msg_topic := None;
                  msg_android :=
                    Some {| ac_priority := "high";
                            ac_notification :=
                              {| an_sound := "default";
                                 an_channel_id := channel_id |} |};
                  msg_apns :=
                    Some {| apns_payload_aps :=
                              {| aps_sound := "default"; aps_badge := 1 |} |} |} in
             response ← send message;
             mret (jsonify
                     [("success", PBool true);
                      ("message", PStr "Notificación enviada exitosamente");
                      ("messageId", PStr response);
                      ("userId", user_id);
                      ("email", dict_get user_data "email")])
       end)
    (λ e, mret (error_send_to_user e)).

Definition batch_size : nat := 500.

(** The loop of lines 153-158: the truthy [fcmToken] values, in the order
    the query yields the documents. *)
Definition collect_tokens (users : list DocumentSnapshot) : M (list pyval) :=
  for_each users []
    (λ tokens user,
       let user_data := to_dict user in
       let fcm_token := dict_get user_data "fcmToken" in
       if truthy fcm_token then mret (tokens ++ [fcm_token]) else mret tokens).

(** The loop of lines 170-181; its state is
    [(total_success, total_failure)]. *)
Definition send_batches (title body notification_data : pyval)
    (tokens : list pyval) : M (Z * Z) :=
  for_each (py_range (length tokens) batch_size) (0%Z, 0%Z)
    (λ totals i,
       let batch := py_slice tokens i (i + batch_size) in
       message ← new_multicast_message {| n_title := title; n_body := body |}
                   notification_data batch;
       response ← send_multicast message;
       mret ((totals.1 + success_count response)%Z,
             (totals.2 + failure_count response)%Z)).

(** [POST /api/notifications/send-to-all]. *)
Definition send_to_all (request : Request) : M Response :=
  try_except
    (data ← lift_result (get_json request);
     missing ←
       (title ← py_get data "title" PNone;
        if negb (truthy title) then mret true else
        body ← py_get data "body" PNone;
        mret (negb (truthy body)));
     if (missing : bool) then
       mret (jsonify_status
               [("error", PStr "Faltan datos requeridos");
                ("required", PList [PStr "title"; PStr "body"])] 400)
     else
       title ← py_getitem data "title";
       body ← py_getitem data "body";
       notification_data ← py_get data "data" (PDict ∅);
       users ← stream_where usuarios_registrados "fcmToken" "!=" PNone;
       tokens ← collect_tokens users;
       if negb (truthy (PList tokens)) then
         mret (jsonify_status
                 [("error", PStr "No hay usuarios con tokens FCM")] 400)
       else
         totals ← send_batches title body notification_data tokens;
         mret (jsonify
                 [("success", PBool true);
                  ("message", PStr "Notificaciones enviadas");
                  ("totalUsers", PInt (Z.of_nat (length tokens)));
                  ("successCount", PInt totals.1);
                  ("failureCount", PInt totals.2)]))
    (λ e, mret (error_500 e)).

(** [POST /api/notifications/send-to-topic]. *)
Definition send_to_topic (request : Request) : M Response :=
  try_except
    (data ← lift_result (get_json request);
     missing ←
       (topic ← py_get data "topic" PNone;
        if negb (truthy topic) then mret true else
        title ← py_get data "title" PNone;
        if negb (truthy title) then mret true else
        body ← py_get data "body" PNone;
        mret (negb (truthy body)));
     if (missing : bool) then
       mret (jsonify_status
               [("error", PStr "Faltan datos requeridos");
                ("required", PList [PStr "topic"; PStr "title"; PStr "body"])]
               400)
     else
       topic ← py_getitem data "topic";
       title ← py_getitem data "title";
       body ← py_getitem data "body";
       notification_data ← py_get data "data" (PDict ∅);
       let message :=
         {| msg_notification := {| n_title := title; n_body := body |};
            msg_data := notification_data;
            msg_token := None;
            msg_topic := Some topic;
            msg_android :=
              Some {| ac_priority := "high";
                      ac_notification :=
                        {| an_sound := "default";
                           an_channel_id := PStr "general_channel" |} |};
            msg_apns := None |} in
       response ← send message;
       mret (jsonify
               [("success", PBool true);
                ("message", PStr "Notificación enviada al tópico");
                ("messageId", PStr response);
                ("topic", topic)]))
    (λ e, mret (error_500 e)).

(** One element of [users_list] (lines 249-253). *)
Definition user_entry (user : DocumentSnapshot) : pyval :=
  let user_data := to_dict user in
  PDict (list_to_map
           [("id", PStr (snap_id user));
            ("email", dict_get user_data "email");
            ("hasToken", PBool (truthy (dict_get user_data "fcmToken")))]).

(** [GET /api/notifications/users]. *)
Definition get_users : M Response :=
  try_except
    (users ← stream usuarios_registrados;
     users_list ← for_each users []
                    (λ users_list user, mret (users_list ++ [user_entry user]));
     with_tokens ← for_each users_list 0%Z
                     (λ count u,
                        hasToken ← py_getitem u "hasToken";
                        if truthy hasToken then mret (count + 1)%Z
                        else mret count);
     mret (jsonify
             [("success", PBool true);
              ("total", PInt (Z.of_nat (length users_list)));
              ("withTokens", PInt with_tokens);
              ("users", PList users_list)]))
    (λ e, mret (error_500 e)).

End App.

(** * Properties *)

(** ** Running a handler

    [handle m w h] runs [m] in world [w] after the calls [h] and gives the
    calls this run added together with its result. *)
Definition handle {A : Type} (m : M A) (w : World) (h : list event)
  : list event * result A :=
  let (h', r) := m w h in (drop (length h) h', r).

(** The multicast calls of a log, each with its answer, and the single
    sends. *)
Definition multicast_calls (evs : list event)
  : list (MulticastMessage * result BatchResponse) :=
  omap (λ ev, match ev with
              | SendMulticast m a => Some (m, a)
              | _ => None
              end) evs.

Definition send_calls (evs : list event) : list (Message * result string) :=
  omap (λ ev, match ev with
              | Send m a => Some (m, a)
              | _ => None
              end) evs.

Definition is_directory_call (ev : event) : bool :=
  match ev with
  | DocumentGet _ _ _ | StreamWhere _ _ _ _ _ | Stream _ _ => true
  | Send _ _ | SendMulticast _ _ => false
  end.

Definition returned {A : Type} (r : result A) : Prop :=
  match r with Ok _ => True | Raise _ => False end.

(** Sums of the counts the backend reported. *)
Definition sum_success (rs : list BatchResponse) : Z :=
  foldr (λ r acc, (success_count r + acc)%Z) 0%Z rs.

Definition sum_failure (rs : list BatchResponse) : Z :=
  foldr (λ r acc, (failure_count r + acc)%Z) 0%Z rs.

(** [ceil(n / d)]. *)
Definition ceil_div (n d : nat) : nat := ((n + d - 1) / d)%nat.

(** The tokens [send_to_all] keeps: the truthy [fcmToken] fields of the
    documents the query yields, in order. *)
Definition eligible_tokens (users : list DocumentSnapshot) : list pyval :=
  filter (λ v, truthy v = true)
         (map (λ user, dict_get (to_dict user) "fcmToken") users).

(** The [k]-th consecutive group of [size] elements of [l]. *)
Definition group {A : Type} (size : nat) (l : list A) (k : nat) : list A :=
  take size (drop (k * size) l).

(** The message [send_batches] builds at index [i]. *)
Definition batch_message (title body notification_data : pyval)
    (tokens : list pyval) (i : nat) : MulticastMessage :=
  {| mm_notification := {| n_title := title; n_body := body |};
     mm_data := notification_data;
     mm_tokens := py_slice tokens i (i + App.batch_size) |}.

(** The success response of [send_to_all]. *)
Definition all_sent (total_users : nat) (total_success total_failure : Z)
  : Response :=
  jsonify
    [("success", PBool true);
     ("message", PStr "Notificaciones enviadas");
     ("totalUsers", PInt (Z.of_nat total_users));
     ("successCount", PInt total_success);
     ("failureCount", PInt total_failure)].

(** The query [send_to_all] issues. *)
Definition token_query (answer : result (list DocumentSnapshot)) : event :=
  StreamWhere App.usuarios_registrados "fcmToken" "!=" PNone answer.

(** The multicast message over the [k]-th group of 500 tokens. *)
Definition group_message (title body notification_data : pyval)
    (tokens : list pyval) (k : nat) : MulticastMessage :=
  {| mm_notification := {| n_title := title; n_body := body |};
     mm_data := notification_data;
     mm_tokens := group 500 tokens k |}.

(** The message [send_to_user] submits, for the caller's data map
    [caller_data]. *)
Definition user_message (title body channel_id fcm_token : pyval)
    (caller_data : gmap string pyval) : Message :=
  {| msg_notification := {| n_title := title; n_body := body |};
     msg_data := PDict (<["channelId" := channel_id]> caller_data);
     msg_token := Some fcm_token;
     msg_topic := None;
     msg_android :=
       Some {| ac_priority := "high";
               ac_notification :=
                 {| an_sound := "default"; an_channel_id := channel_id |} |};
     msg_apns :=
       Some {| apns_payload_aps :=
                 {| aps_sound := "default"; aps_badge := 1 |} |} |}.

(** The responses of [send_to_user]. *)
Definition user_sent (message_id : string) (user_id email : pyval)
  : Response :=
  jsonify
    [("success", PBool true);
     ("message", PStr "Notificación enviada exitosamente");
     ("messageId", PStr message_id);
     ("userId", user_id);
     ("email", email)].

Definition user_fields_missing : Response :=
  jsonify_status
    [("error", PStr "Faltan datos requeridos");
     ("required", PList [PStr "userId"; PStr "title"; PStr "body"])] 400.

Definition user_not_found (user_id : pyval) : Response :=
  jsonify_status
    [("error", PStr "Usuario no encontrado"); ("userId", user_id)] 404.

Definition user_without_token (user_id : pyval) : Response :=
  jsonify_status
    [("error", PStr "El usuario no tiene un token FCM"); ("userId", user_id)]
    400.

(** The required fields that a request body lacks: those absent or
    falsy. *)
Definition missing_fields (d : gmap string pyval) (required : list string)
  : list string :=
  filter (λ key, truthy (dict_get d key) = false) required.

(** Whether an entry of the returned [users] list has [hasToken] true. *)
Definition entry_has_token (entry : pyval) : bool :=
  match entry with
  | PDict fields =>
      match fields !! "hasToken" with
      | Some (PBool true) => true
      | _ => false
      end
  | _ => false
  end.

(** The number of entries whose [hasToken] is true. *)
Definition count_with_token (entries : list pyval) : nat :=
  length (filter (λ entry, entry_has_token entry = true) entries).

(** The success response of [get_users]. *)
Definition users_listed (entries : list pyval) : Response :=
  jsonify
    [("success", PBool true);
     ("total", PInt (Z.of_nat (length entries)));
     ("withTokens", PInt (Z.of_nat (count_with_token entries)));
     ("users", PList entries)].

(** The data model's [fcmToken]: absent, null, or a string. *)
Definition token_optional_string (user : DocumentSnapshot) : Prop :=
  match to_dict user !! "fcmToken" with
  | None | Some PNone | Some (PStr _) => True
  | Some _ => False
  end.

(** ** Example worlds *)

Module Example.

(** A Directory held in memory: the documents in the order they are
    enumerated.  The point lookup finds the document with the given id;
    the filtered query keeps the documents in which the field exists and
    is not null. *)
Definition memory_directory (docs : list DocumentSnapshot) : Directory :=
  {| dir_document_get := λ _ _ document_id,
       match document_id with
       | PStr s => Ok (to_dict <$> head (filter (λ doc, snap_id doc = s) docs))
       | _ => Raise (Exn "TypeError" "document id must be a string")
       end;
     dir_stream_where := λ _ _ field _ _,
       Ok (filter (λ doc, match to_dict doc !! field with
                          | None | Some PNone => false
                          | Some _ => true
                          end = true) docs);
     dir_stream := λ _ _, Ok docs |}.

Definition unavailable : exn := Exn "UnavailableError" "backend unavailable".

(** The check of the [MulticastMessage] constructor, as the library makes
    it: the tokens must all be strings, and at most 500. *)
Definition tokens_error (_ : Notification) (_ : pyval) (tokens : list pyval)
  : option exn :=
  if negb (forallb (λ token, match token with PStr _ => true | _ => false end)
                   tokens)
  then Some (Exn "ValueError"
               "MulticastMessage.tokens must not contain non-string values.")
  else if decide (500 < length tokens)%nat
  then Some (Exn "ValueError"
               "MulticastMessage.tokens must not contain more than 500 tokens.")
  else None.

(** A backend that accepts every message and delivers to every token. *)
Definition accepting : Delivery :=
  {| dlv_send := λ _ _, Ok "projects/demo/messages/1";
     dlv_send_multicast := λ _ m,
       Ok {| success_count := Z.of_nat (length (mm_tokens m));
             failure_count := 0 |};
     dlv_multicast_message_raises := tokens_error |}.

(** A backend that takes every call and delivers to no token. *)
Definition undelivering : Delivery :=
  {| dlv_send := λ _ _, Ok "projects/demo/messages/1";
     dlv_send_multicast := λ _ m,
       Ok {| success_count := 0;
             failure_count := Z.of_nat (length (mm_tokens m)) |};
     dlv_multicast_message_raises := tokens_error |}.

(** A backend that cannot be reached: every call raises. *)
Definition unreachable : Delivery :=
  {| dlv_send := λ _ _, Raise unavailable;
     dlv_send_multicast := λ _ _, Raise unavailable;
     dlv_multicast_message_raises := tokens_error |}.

Definition user (k : nat) : DocumentSnapshot :=
  {| snap_id := "u" +:+ pretty k;
     to_dict := {[ "email" := PStr ("u" +:+ pretty k +:+ "@example.org");
                   "fcmToken" := PStr ("tok" +:+ pretty k) ]} |}.

Definition users (n : nat) : list DocumentSnapshot := map user (seq 0 n).

Definition post (fields : list (string * pyval)) : Request :=
  {| get_json := Ok (PDict (list_to_map fields)) |}.

Definition hi_there : Request :=
  post [("title", PStr "Hi"); ("body", PStr "There")].

(** [n] registered users, all with a token, in front of a backend. *)
Definition world (n : nat) (backend : Delivery) : World :=
  {| directory := memory_directory (users n); delivery := backend |}.

(** A record whose [fcmToken] is a number, not a string. *)
Definition numbered : DocumentSnapshot :=
  {| snap_id := "u7"; to_dict := {[ "fcmToken" := PInt 7 ]} |}.

(** [n] registered users with a token each, followed by [numbered], in
    front of a backend. *)
Definition world_with_number (n : nat) (backend : Delivery) : World :=
  {| directory := memory_directory (users n ++ [numbered]);
     delivery := backend |}.

(** A Directory whose only record, [u9], has an email and no token. *)
Definition tokenless : Directory :=
  memory_directory
    [ {| snap_id := "u9";
         to_dict := {[ "email" := PStr "u9@example.org" ]} |} ].

(** Three records: one with a token, one with an empty token, one with
    no token field. *)
Definition mixed_users : list DocumentSnapshot :=
  [ {| snap_id := "u0";
       to_dict := {[ "email" := PStr "u0@example.org";
                     "fcmToken" := PStr "tok0" ]} |};
    {| snap_id := "u8"; to_dict := {[ "fcmToken" := PStr "" ]} |};
    {| snap_id := "u9";
       to_dict := {[ "email" := PStr "u9@example.org" ]} |} ].

End Example.

(** ** Further vocabulary *)

(** The Directory calls of a log. *)
Definition directory_calls (evs : list event) : list event :=
  filter (λ ev, is_directory_call ev = true) evs.

(** The sequence of batches the loop of [send_batches] goes through:
    [tokens[i:i + batch_size]] for [i] in
    [range(0, len(tokens), batch_size)]. *)
Definition batches (tokens : list pyval) : list (list pyval) :=
  map (λ i, py_slice tokens i (i + App.batch_size))
      (py_range (length tokens) App.batch_size).

(** Whether every message of the batch loop can be built: the constructor
    of [MulticastMessage] raises for none of the batches. *)
Definition messages_built (w : World) (title body notification_data : pyval)
    (tokens : list pyval) : bool :=
  forallb (λ batch,
             match dlv_multicast_message_raises (delivery w)
                     {| n_title := title; n_body := body |}
                     notification_data batch
             with
             | None => true
             | Some _ => false
             end)
          (batches tokens).

(** Whether every call of a list of calls returned. *)
Definition all_returned {A B : Type} (calls : list (A * result B)) : bool :=
  forallb (λ c, match c.2 with Ok _ => true | Raise _ => false end) calls.

(** The validation responses of [send_to_all] and [send_to_topic]. *)
Definition all_fields_missing : Response :=
  jsonify_status
    [("error", PStr "Faltan datos requeridos");
     ("required", PList [PStr "title"; PStr "body"])] 400.

Definition topic_fields_missing : Response :=
  jsonify_status
    [("error", PStr "Faltan datos requeridos");
     ("required", PList [PStr "topic"; PStr "title"; PStr "body"])] 400.

(** The message [send_to_topic] submits and its success response. *)
Definition topic_message (title body notification_data topic : pyval)
  : Message :=
  {| msg_notification := {| n_title := title; n_body := body |};
     msg_data := notification_data;
     msg_token := None;
     msg_topic := Some topic;
     msg_android :=
       Some {| ac_priority := "high";
               ac_notification :=
                 {| an_sound := "default";
                    an_channel_id := PStr "general_channel" |} |};
     msg_apns := None |}.

Definition topic_sent (message_id : string) (topic : pyval) : Response :=
  jsonify
    [("success", PBool true);
     ("message", PStr "Notificación enviada al tópico");
     ("messageId", PStr message_id);
     ("topic", topic)].

(** Whether a value is a dict. *)
Definition is_dict (v : pyval) : bool :=
  match v with PDict _ => true | _ => false end.


(** The [id] and [email] of an entry of the returned [users] list. *)
Definition entry_field (key : string) (entry : pyval) : option pyval :=
  match entry with
  | PDict fields => fields !! key
  | _ => None
  end.

(** The two shapes of the bodies the handlers return: a success body
    under status 200, an error body under status 400, 404 or 500. *)
Definition success_shape (resp : Response) : Prop :=
  status resp = 200%Z ∧
  json resp !! "success" = Some (PBool true) ∧
  json resp !! "error" = None.

Definition error_shape (codes : list Z) (resp : Response) : Prop :=
  status resp ∈ codes ∧
  (∃ text, json resp !! "error" = Some (PStr text)) ∧
  json resp !! "success" = None.


(** The multicast message [send_batches] builds over a batch. *)
Definition multicast_message (title body notification_data : pyval)
    (batch : list pyval) : MulticastMessage :=
  {| mm_notification := {| n_title := title; n_body := body |};
     mm_data := notification_data;
     mm_tokens := batch |}.

(** The Android channel a message names, if it has an Android block. *)
Definition android_channel (message : Message) : option pyval :=
  (λ android, an_channel_id (ac_notification android)) <$> msg_android message.

(** ** Start-up: [initialize_firebase]

    The function reads the process environment and calls [json.loads],
    [credentials.Certificate], [firebase_admin.initialize_app] and
    [print]; these are supplied by a [Platform] and every call is logged
    with its answer. *)

Module Startup.

(** A credential object, as [credentials.Certificate] returns it. *)
Inductive Credential : Type := CredentialObject (handle : nat).

(** [Certificate] is logged with the argument it was given: the value
    [json.loads] returned, or the path of the key file as a string. *)
Inductive call : Type :=
| JsonLoads (text : string) (answer : result pyval)
| Certificate (argument : pyval) (answer : result Credential)
| InitializeApp (cred : Credential) (answer : result unit)
| Print (text : string) (answer : result unit).

(** Each of [json.loads], [Certificate] and [initialize_app] is called at
    most once in a run, so its answer is given by its argument; [print]
    may be called twice, and its answer may depend on the calls made so
    far. *)
Record Platform : Type :=
  { environ : gmap string string;
    json_loads : string → result pyval;
    certificate : pyval → result Credential;
    initialize_app : Credential → result unit;
    print : list call → string → result unit }.

Definition S (A : Type) : Type :=
  Platform → list call → list call * result A.

#[export] Instance S_ret : MRet S := λ A a _ log, (log, Ok a).

#[export] Instance S_bind : MBind S := λ A B f m p log,
  match m p log with
  | (log', Ok a) => f a p log'
  | (log', Raise e) => (log', Raise e)
  end.

(** [try: m  except Exception as e: handler e]. *)
Definition try_except {A : Type} (m : S A) (handler : exn → S A) : S A :=
  λ p log,
    match m p log with
    | (log', Ok a) => (log', Ok a)
    | (log', Raise e) => handler e p log'
    end.

Definition raise {A : Type} (e : exn) : S A := λ _ log, (log, Raise e).

(** [os.environ.get(name)]. *)
Definition os_environ_get (name : string) : S (option string) :=
  λ p log, (log, Ok (environ p !! name)).

Definition call_json_loads (text : string) : S pyval :=
  λ p log,
    let answer := json_loads p text in (log ++ [JsonLoads text answer], answer).

Definition call_certificate (argument : pyval) : S Credential :=
  λ p log,
    let answer := certificate p argument in
    (log ++ [Certificate argument answer], answer).

Definition call_initialize_app (cred : Credential) : S unit :=
  λ p log,
    let answer := initialize_app p cred in
    (log ++ [InitializeApp cred answer], answer).

Definition call_print (text : string) : S unit :=
  λ p log,
    let answer := print p log text in (log ++ [Print text answer], answer).

(** The truth value of what [os.environ.get] returns: [None] and the
    empty string are falsy. *)
Definition truthy_str (value : option string) : bool :=
  match value with
  | Some (String _ _) => true
  | Some EmptyString | None => false
  end.

(** The texts of lines 30 and 33. *)
Definition initialized_text : string :=
  "✅ Firebase Admin inicializado correctamente".

Definition error_text (e : exn) : string :=
  "❌ Error al inicializar Firebase: " +:+ exn_str e.

(** [initialize_firebase] (lines 16-34).  The [print] of line 30 is
    inside the [try]; the [except] clause prints and then re-raises what
    it caught, unless its own [print] raises. *)
Definition initialize_firebase : S unit :=
  try_except
    (firebase_credentials ← os_environ_get "FIREBASE_CREDENTIALS";
     cred ←
       (if truthy_str firebase_credentials then
          cred_dict ← call_json_loads (default "" firebase_credentials);
          call_certificate cred_dict
        else
          call_certificate (PStr "serviceAccountKey.json"));
     _ ← call_initialize_app cred;
     call_print initialized_text)
    (λ e, _ ← call_print (error_text e); raise e).

Definition is_json_loads (c : call) : bool :=
  match c with JsonLoads _ _ => true | _ => false end.

Definition is_initialize_app (c : call) : bool :=
  match c with InitializeApp _ _ => true | _ => false end.

(** The exception a call raised, if it raised. *)
Definition call_raised (c : call) : option exn :=
  match c with
  | JsonLoads _ (Raise e) | Certificate _ (Raise e)
  | InitializeApp _ (Raise e) | Print _ (Raise e) => Some e
  | _ => None
  end.

(** Whether every call of a log returned. *)
Definition all_calls_returned (log : list call) : bool :=
  forallb (λ c, match call_raised c with None => true | Some _ => false end)
          log.

(** The text of a JSON string literal without escapes. *)
Definition json_string (s : string) : string :=
  let quote := Ascii.Ascii false true false false false true false false in
  String quote (s +:+ String quote "").

(** A platform whose calls all succeed, with the given environment and
    a JSON parser that knows the empty object and one string literal. *)
Definition platform (env : gmap string string) : Platform :=
  {| environ := env;
     json_loads := λ text,
       if decide (text = "{}") then Ok (PDict ∅)
       else if decide (text = json_string "serviceAccountKey.json")
       then Ok (PStr "serviceAccountKey.json")
       else Raise (Exn "JSONDecodeError"
                     "Expecting value: line 1 column 1 (char 0)");
     certificate := λ _, Ok (CredentialObject 0);
     initialize_app := λ _, Ok ();
     print := λ _ _, Ok () |}.

(** The same platform with a standard output that cannot encode the
    texts: every [print] raises. *)
Definition mute (p : Platform) : Platform :=
  {| environ := environ p;
     json_loads := json_loads p;
     certificate := certificate p;
     initialize_app := initialize_app p;
     print := λ _ _,
       Raise (Exn "UnicodeEncodeError"
                "'ascii' codec can't encode character") |}.

End Startup.

(** ** Arithmetic of the batch count *)

Lemma ceil_div_0 (d : nat) : (0 < d)%nat → ceil_div 0 d = 0%nat.
Proof.
  intros Hd. unfold ceil_div. apply Nat.div_small. lia.
Qed.

Lemma ceil_div_step (n d : nat) :
  (0 < d)%nat → (0 < n)%nat → ceil_div n d = S (ceil_div (n - d) d).
Proof.
  intros Hd Hn. unfold ceil_div.
  destruct (decide (n ≤ d)%nat) as [Hle|Hgt].
  - replace (n - d + d - 1)%nat with (d - 1)%nat by lia.
    rewrite (Nat.div_small (d - 1) d) by lia.
    replace (n + d - 1)%nat with (n - 1 + 1 * d)%nat by lia.
    rewrite Nat.div_add by lia.
    rewrite Nat.div_small by lia. reflexivity.
  - replace (n + d - 1)%nat with (n - d + d - 1 + 1 * d)%nat by lia.
    rewrite Nat.div_add by lia. lia.
Qed.

(** [ceil_div n d] is the least number of groups of [d] that cover [n]. *)
Lemma ceil_div_spec (n d k : nat) :
  (0 < d)%nat → (ceil_div n d ≤ k ↔ n ≤ k * d)%nat.
Proof.
  intros Hd. unfold ceil_div. split; intros H.
  - assert (n + d - 1 < (S k) * d)%nat; [|lia].
    pose proof (Nat.div_mod_eq (n + d - 1) d) as Hdm.
    pose proof (Nat.mod_upper_bound (n + d - 1) d ltac:(lia)) as Hm.
    nia.
  - assert ((n + d - 1) / d < S k)%nat; [|lia].
    apply Nat.Div0.div_lt_upper_bound. lia.
Qed.

(** ** [range] and the groups it induces *)

Lemma py_range_from_closed (step : nat) :
  (0 < step)%nat →
  ∀ fuel i stop,
    (stop - i ≤ fuel)%nat →
    py_range_from fuel i stop step =
      map (λ k, i + k * step)%nat (seq 0 (ceil_div (stop - i) step)).
Proof.
  intros Hstep. induction fuel as [|fuel IH]; intros i stop Hfuel.
  - replace (stop - i)%nat with 0%nat by lia.
    rewrite ceil_div_0 by done. reflexivity.
  - simpl. destruct (decide (i < stop)%nat) as [Hlt|Hge].
    + rewrite (ceil_div_step (stop - i) step) by lia.
      rewrite IH by lia. simpl. f_equal; [lia|].
      rewrite <- fmap_S_seq, <- list_fmap_compose.
      replace (stop - i - step)%nat with (stop - (i + step))%nat by lia.
      apply list_fmap_ext. intros ? k _. simpl. lia.
    + replace (stop - i)%nat with 0%nat by lia.
      rewrite ceil_div_0 by done. reflexivity.
Qed.

Lemma py_range_closed (stop step : nat) :
  (0 < step)%nat →
  py_range stop step = map (λ k, k * step)%nat (seq 0 (ceil_div stop step)).
Proof.
  intros Hstep. unfold py_range.
  rewrite py_range_from_closed by lia.
  rewrite Nat.sub_0_r. apply list_fmap_ext. intros ? k _. lia.
Qed.

Lemma py_slice_group {A : Type} (l : list A) (size k : nat) :
  py_slice l (k * size) (k * size + size) = group size l k.
Proof.
  unfold py_slice, group. f_equal. lia.
Qed.

Lemma concat_groups {A : Type} (size : nat) (l : list A) (m : nat) :
  concat (map (group size l) (seq 0 m)) = take (m * size) l.
Proof.
  induction m as [|m IH].
  - reflexivity.
  - rewrite seq_S, map_app, concat_app, IH. simpl.
    rewrite app_nil_r. unfold group.
    rewrite take_take_drop. f_equal. lia.
Qed.

Lemma concat_all_groups {A : Type} (size : nat) (l : list A) :
  (0 < size)%nat →
  concat (map (group size l) (seq 0 (ceil_div (length l) size))) = l.
Proof.
  intros Hsize. rewrite concat_groups. apply take_ge.
  apply (ceil_div_spec _ _ _ Hsize). lia.
Qed.

Lemma group_length_le {A : Type} (size : nat) (l : list A) (k : nat) :
  (length (group size l k) ≤ size)%nat.
Proof.
  unfold group. rewrite length_take. lia.
Qed.

Lemma group_nonempty {A : Type} (size : nat) (l : list A) (k : nat) :
  (0 < size)%nat → (k < ceil_div (length l) size)%nat →
  (0 < length (group size l k))%nat.
Proof.
  intros Hsize Hk. unfold group. rewrite length_take, length_drop.
  assert (¬ (length l ≤ k * size)%nat) as Hn.
  { intros Hle. apply (ceil_div_spec _ _ _ Hsize) in Hle. lia. }
  lia.
Qed.

(** ** The monad's equations *)

Ltac unfold_M :=
  unfold mbind, mret, M_bind, M_ret, try_except, lift_result, raise,
    py_get, py_getitem, py_unpack_with, document_get, send,
    stream, stream_where, send_multicast, new_multicast_message in *.

Lemma handle_app {A : Type} (m : M A) (w : World) (h evs : list event)
    (r : result A) :
  m w h = (h ++ evs, r) → handle m w h = (evs, r).
Proof.
  intros Hm. unfold handle. rewrite Hm. by rewrite drop_app_length.
Qed.

Lemma bind_run {A B : Type} (m : M A) (f : A → M B) (w : World)
    (h : list event) :
  (m ≫= f) w h =
    match m w h with
    | (h', Ok a) => f a w h'
    | (h', Raise e) => (h', Raise e)
    end.
Proof. reflexivity. Qed.

Lemma ret_run {A : Type} (a : A) (w : World) (h : list event) :
  (mret a : M A) w h = (h, Ok a).
Proof. reflexivity. Qed.

Lemma for_each_cons {A S : Type} (x : A) (l : list A) (s : S)
    (body : S → A → M S) (w : World) (h : list event) :
  for_each (x :: l) s body w h =
    match body s x w h with
    | (h', Ok s') => for_each l s' body w h'
    | (h', Raise e) => (h', Raise e)
    end.
Proof. reflexivity. Qed.

(** ** The loops of the handlers *)

Lemma collect_tokens_from (w : World) (h : list event)
    (users : list DocumentSnapshot) :
  ∀ tokens : list pyval,
    for_each users tokens
      (λ tokens user,
         let user_data := to_dict user in
         let fcm_token := dict_get user_data "fcmToken" in
         if truthy fcm_token then mret (tokens ++ [fcm_token])
         else mret tokens) w h
    = (h, Ok (tokens ++ eligible_tokens users)).
Proof.
  induction users as [|user users IH]; intros tokens.
  - simpl. unfold_M. by rewrite app_nil_r.
  - simpl. unfold eligible_tokens. simpl. rewrite filter_cons.
    unfold mbind, M_bind at 1.
    destruct (truthy (dict_get (to_dict user) "fcmToken")) eqn:Htok.
    + unfold mret, M_ret at 1. rewrite IH.
      rewrite decide_True by done. by rewrite <- app_assoc.
    + unfold mret, M_ret at 1. rewrite IH.
      rewrite decide_False by done. done.
Qed.

Lemma collect_tokens_run (w : World) (h : list event)
    (users : list DocumentSnapshot) :
  App.collect_tokens users w h = (h, Ok (eligible_tokens users)).
Proof.
  unfold App.collect_tokens. by rewrite collect_tokens_from.
Qed.

Section batches.
Context (title body notification_data : pyval) (tokens : list pyval).
Context (w : World).

Let message := batch_message title body notification_data tokens.

Let build_raises (i : nat) : option exn :=
  dlv_multicast_message_raises (delivery w)
    {| n_title := title; n_body := body |} notification_data
    (py_slice tokens i (i + App.batch_size)).

Let loop_body (totals : Z * Z) (i : nat) : M (Z * Z) :=
  message ← new_multicast_message {| n_title := title; n_body := body |}
              notification_data (py_slice tokens i (i + App.batch_size));
  response ← send_multicast message;
  mret ((totals.1 + success_count response)%Z,
        (totals.2 + failure_count response)%Z).

Lemma loop_body_run (totals : Z * Z) (i : nat) (h : list event) :
  loop_body totals i w h =
    match build_raises i with
    | Some e => (h, Raise e)
    | None =>
        match dlv_send_multicast (delivery w) h (message i) with
        | Ok response =>
            (h ++ [SendMulticast (message i) (Ok response)],
             Ok ((totals.1 + success_count response)%Z,
                 (totals.2 + failure_count response)%Z))
        | Raise e => (h ++ [SendMulticast (message i) (Raise e)], Raise e)
        end
    end.
Proof.
  unfold loop_body, build_raises, message, batch_message. unfold_M.
  destruct (dlv_multicast_message_raises _ _ _ _); [done|].
  by destruct (dlv_send_multicast _ _ _).
Qed.

(** The batch loop builds and submits the messages of the indices in
    order, adds up the counts while the calls return, and stops at the
    first call that raises or at the first message that cannot be
    built. *)
Lemma batch_loop (indices : list nat) :
  ∀ (totals : Z * Z) (h : list event),
    ∃ answers : list (result BatchResponse),
      (length answers ≤ length indices)%nat ∧
      ((∃ rs,
          answers = map Ok rs ∧ length rs = length indices ∧
          for_each indices totals loop_body w h
          = (h ++ zip_with (λ i a, SendMulticast (message i) a)
                           indices answers,
             Ok ((totals.1 + sum_success rs)%Z,
                 (totals.2 + sum_failure rs)%Z)))
       ∨
       (∃ rs e,
          answers = map Ok rs ++ [Raise e] ∧
          for_each indices totals loop_body w h
          = (h ++ zip_with (λ i a, SendMulticast (message i) a)
                           indices answers,
             Raise e))
       ∨
       (∃ rs e i,
          answers = map Ok rs ∧
          indices !! length rs = Some i ∧ build_raises i = Some e ∧
          for_each indices totals loop_body w h
          = (h ++ zip_with (λ i a, SendMulticast (message i) a)
                           indices answers,
             Raise e))).
Proof.
  induction indices as [|i indices IH]; intros totals h.
  - exists []. split; [done|]. left. exists []. simpl. unfold_M.
    rewrite app_nil_r, !Z.add_0_r. by destruct totals.
  - rewrite !for_each_cons, !loop_body_run.
    destruct (build_raises i) as [e|] eqn:Hbuild.
    { exists []. split; [simpl; lia|].
      right. right. exists [], e, i. split; [done|]. split; [done|].
      split; [done|]. simpl. by rewrite app_nil_r. }
    destruct (dlv_send_multicast (delivery w) h (message i))
      as [resp|e] eqn:Hans.
    +
      destruct (IH ((totals.1 + success_count resp)%Z,
                    (totals.2 + failure_count resp)%Z)
                  (h ++ [SendMulticast (message i) (Ok resp)]))
        as (answers & Hlen
              & [(rs & -> & Hrs & Hrun)
                |[(rs & e & -> & Hrun)
                 |(rs & e & j & -> & Hj & Hraises & Hrun)]]).
      * exists (Ok resp :: map Ok rs). split; [simpl; lia|].
        left. exists (resp :: rs). split; [done|]. split; [simpl; lia|].
        rewrite Hrun. simpl. rewrite <- app_assoc. simpl.
        do 3 f_equal; lia.
      * exists (Ok resp :: map Ok rs ++ [Raise e]). split; [simpl; lia|].
        right. left. exists (resp :: rs), e. split; [done|].
        rewrite Hrun. simpl. by rewrite <- app_assoc.
      * exists (Ok resp :: map Ok rs). split; [simpl; lia|].
        right. right. exists (resp :: rs), e, j. split; [done|].
        split; [done|]. split; [done|].
        rewrite Hrun. simpl. by rewrite <- app_assoc.
    + exists [Raise e]. split; [simpl; lia|].
      right. left. exists [], e. split; [done|]. simpl.
      by destruct indices.
Qed.

Lemma send_batches_run (h : list event) :
  let indices := py_range (length tokens) App.batch_size in
  ∃ answers : list (result BatchResponse),
    (length answers ≤ length indices)%nat ∧
    ((∃ rs,
        answers = map Ok rs ∧ length rs = length indices ∧
        App.send_batches title body notification_data tokens w h
        = (h ++ zip_with (λ i a, SendMulticast (message i) a)
                         indices answers,
           Ok (sum_success rs, sum_failure rs)))
     ∨
     (∃ rs e,
        answers = map Ok rs ++ [Raise e] ∧
        App.send_batches title body notification_data tokens w h
        = (h ++ zip_with (λ i a, SendMulticast (message i) a)
                         indices answers,
           Raise e))
     ∨
     (∃ rs e i,
        answers = map Ok rs ∧
        indices !! length rs = Some i ∧ build_raises i = Some e ∧
        App.send_batches title body notification_data tokens w h
        = (h ++ zip_with (λ i a, SendMulticast (message i) a)
                         indices answers,
           Raise e))).
Proof.
  intros indices. unfold App.send_batches.
  destruct (batch_loop indices (0%Z, 0%Z) h)
    as (answers & Hlen
          & [(rs & -> & Hrs & Hrun)
            |[(rs & e & -> & Hrun)|(rs & e & i & -> & Hi & Hraises & Hrun)]]).
  - exists (map Ok rs). split; [done|]. left. exists rs.
    split; [done|]. split; [done|]. apply Hrun.
  - exists (map Ok rs ++ [Raise e]). split; [done|]. right. left.
    exists rs, e. split; [done|]. apply Hrun.
  - exists (map Ok rs). split; [done|]. right. right. exists rs, e, i.
    split; [done|]. split; [done|]. split; [done|]. apply Hrun.
Qed.
End batches.

Lemma multicast_calls_zip (message : nat → MulticastMessage)
    (indices : list nat) :
  ∀ answers : list (result BatchResponse),
    multicast_calls
      (zip_with (λ i a, SendMulticast (message i) a) indices answers)
    = zip_with (λ i a, (message i, a)) indices answers.
Proof.
  induction indices as [|i indices IH]; intros [|a answers]; simpl; try done.
  unfold multicast_calls in *. simpl. by rewrite IH.
Qed.

(** ** [send_to_all] *)

Section send_to_all.
Context (w : World) (h : list event) (request : Request).
Context (d : gmap string pyval) (title body : pyval).
Context (users : list DocumentSnapshot).

Hypothesis Hjson : get_json request = Ok (PDict d).
Hypothesis Htitle : d !! "title" = Some title.
Hypothesis Htitle_truthy : truthy title = true.
Hypothesis Hbody : d !! "body" = Some body.
Hypothesis Hbody_truthy : truthy body = true.
Hypothesis Husers :
  dir_stream_where (directory w) h App.usuarios_registrados
    "fcmToken" "!=" PNone = Ok users.

(** A valid request with no eligible token stops after the query. *)
Lemma send_to_all_no_tokens :
  eligible_tokens users = [] →
  App.send_to_all request w h =
    (h ++ [token_query (Ok users)],
     Ok (jsonify_status
           [("error", PStr "No hay usuarios con tokens FCM")] 400)).
Proof.
  intros Hnone. unfold App.send_to_all.
  unfold_M. rewrite Hjson. simpl. rewrite Htitle, Hbody. simpl.
  rewrite Htitle_truthy, Hbody_truthy. simpl. rewrite Husers.
  rewrite collect_tokens_run, Hnone. reflexivity.
Qed.

(** A valid request with eligible tokens runs the batch loop: either
    every message is built and every call returns, and the totals are
    reported, or the first call that raises, or the first message that
    cannot be built, ends the request with status 500. *)
Lemma send_to_all_batches_run :
  eligible_tokens users ≠ [] →
  let tokens := eligible_tokens users in
  let message :=
    batch_message title body (default (PDict ∅) (d !! "data")) tokens in
  let indices := py_range (length tokens) App.batch_size in
  ∃ answers : list (result BatchResponse),
    (length answers ≤ length indices)%nat ∧
    ((∃ rs,
        answers = map Ok rs ∧ length rs = length indices ∧
        App.send_to_all request w h =
          (h ++ token_query (Ok users) ::
                zip_with (λ i a, SendMulticast (message i) a) indices answers,
           Ok (all_sent (length tokens) (sum_success rs) (sum_failure rs))))
     ∨
     (∃ rs e,
        answers = map Ok rs ++ [Raise e] ∧
        App.send_to_all request w h =
          (h ++ token_query (Ok users) ::
                zip_with (λ i a, SendMulticast (message i) a) indices answers,
           Ok (App.error_500 e)))
     ∨
     (∃ rs e i,
        answers = map Ok rs ∧
        indices !! length rs = Some i ∧
        dlv_multicast_message_raises (delivery w)
          {| n_title := title; n_body := body |}
          (default (PDict ∅) (d !! "data"))
          (py_slice tokens i (i + App.batch_size)) = Some e ∧
        App.send_to_all request w h =
          (h ++ token_query (Ok users) ::
                zip_with (λ i a, SendMulticast (message i) a) indices answers,
           Ok (App.error_500 e)))).
Proof.
  intros Hsome tokens message indices.
  destruct (send_batches_run title body (default (PDict ∅) (d !! "data"))
              tokens w (h ++ [token_query (Ok users)]))
    as (answers & Hlen & Hloop).
  exists answers. split; [done|].
  assert (∀ r,
    App.send_batches title body (default (PDict ∅) (d !! "data")) tokens w
      (h ++ [token_query (Ok users)]) = r →
    App.send_to_all request w h =
      match r with
      | (h', Ok totals) =>
          (h', Ok (all_sent (length tokens) totals.1 totals.2))
      | (h', Raise e) => (h', Ok (App.error_500 e))
      end) as Hrun.
  { intros r Hr. unfold App.send_to_all.
    unfold_M. rewrite Hjson. simpl. rewrite Htitle, Hbody. simpl.
    rewrite Htitle_truthy, Hbody_truthy. simpl. rewrite Husers.
    rewrite collect_tokens_run. cbv beta iota. fold tokens.
    assert (match tokens with [] => false | _ :: _ => true end = true)
      as -> by (subst tokens; by destruct (eligible_tokens users)).
    change (negb true) with false. cbv beta iota.
    unfold token_query in Hr. rewrite Hr.
    destruct r as [h' [totals|e]]; reflexivity. }
  destruct Hloop as [(rs & -> & Hrs & Hloop)
                    |[(rs & e & -> & Hloop)
                     |(rs & e & i & -> & Hi & Hraises & Hloop)]].
  - left. exists rs. split; [done|]. split; [done|].
    rewrite (Hrun _ Hloop). simpl. by rewrite <- app_assoc.
  - right. left. exists rs, e. split; [done|].
    rewrite (Hrun _ Hloop). simpl. by rewrite <- app_assoc.
  - right. right. exists rs, e, i. split; [done|]. split; [done|].
    split; [done|].
    rewrite (Hrun _ Hloop). simpl. by rewrite <- app_assoc.
Qed.
End send_to_all.

(** Every run of [send_to_all] either makes no multicast call at all or
    is a valid request that found eligible tokens. *)
Lemma send_to_all_cases (w : World) (h : list event) (request : Request) :
  (∃ evs resp,
     App.send_to_all request w h = (h ++ evs, Ok resp) ∧
     multicast_calls evs = [])
  ∨
  (∃ d title body users,
     get_json request = Ok (PDict d) ∧
     d !! "title" = Some title ∧ truthy title = true ∧
     d !! "body" = Some body ∧ truthy body = true ∧
     dir_stream_where (directory w) h App.usuarios_registrados
       "fcmToken" "!=" PNone = Ok users ∧
     eligible_tokens users ≠ []).
Proof.
  assert (∀ resp : Response, (h, Ok resp) = (h ++ [], Ok resp)) as Hnil
    by (intros; by rewrite app_nil_r).
  destruct (get_json request) as [data|e] eqn:Hjson.
  - destruct data as [| | | | | |d];
      try (left; eexists [], _; unfold App.send_to_all; unfold_M;
           rewrite Hjson; simpl; split; [apply Hnil|done]).
    destruct (d !! "title") as [title|] eqn:Htitle;
      [destruct (truthy title) eqn:Htitle_truthy|];
      try (left; eexists [], _; unfold App.send_to_all; unfold_M;
           rewrite Hjson; simpl; rewrite Htitle; simpl;
           rewrite ?Htitle_truthy; simpl; split; [apply Hnil|done]).
    destruct (d !! "body") as [body|] eqn:Hbody;
      [destruct (truthy body) eqn:Hbody_truthy|];
      try (left; eexists [], _; unfold App.send_to_all; unfold_M;
           rewrite Hjson; simpl; rewrite Htitle, Hbody; simpl;
           rewrite Htitle_truthy, ?Hbody_truthy; simpl;
           split; [apply Hnil|done]).
    destruct (dir_stream_where (directory w) h App.usuarios_registrados
                "fcmToken" "!=" PNone) as [users|e] eqn:Husers.
    + destruct (eligible_tokens users) as [|token tokens] eqn:Htokens.
      * left. eexists [token_query (Ok users)], _. split; [|done].
        by apply (send_to_all_no_tokens w h request d title body users).
      * right. exists d, title, body, users. rewrite Htokens. done.
    + left. eexists [_], _. unfold App.send_to_all. unfold_M.
      rewrite Hjson. simpl. rewrite Htitle, Hbody. simpl.
      rewrite Htitle_truthy, Hbody_truthy. simpl. rewrite Husers.
      split; done.
  - left. eexists [], _. unfold App.send_to_all. unfold_M.
    rewrite Hjson. split; [apply Hnil|done].
Qed.

Lemma returned_zip {A : Type} (message : nat → A) (indices : list nat) :
  ∀ answers : list (result BatchResponse),
    (length answers ≤ length indices)%nat →
    Forall (λ c : A * result BatchResponse, returned c.2)
           (zip_with (λ i a, (message i, a)) indices answers) →
    Forall returned answers.
Proof.
  induction indices as [|i indices IH]; intros [|a answers] Hlen Hall;
    simpl in *; try done; [lia|].
  inversion Hall; subst. constructor; [done|]. apply IH; [lia|done].
Qed.

Lemma not_returned_raise (rs : list BatchResponse) (e : exn) :
  ¬ Forall returned (map Ok rs ++ [Raise e]).
Proof.
  rewrite Forall_app, Forall_singleton. intros [_ []].
Qed.

Lemma map_zip_with_l {A B C D : Type} (f : A → C) (g : A → B → D)
    (p : D → C) (l : list A) :
  (∀ x y, p (g x y) = f x) →
  ∀ k : list B, length l = length k → map p (zip_with g l k) = map f l.
Proof.
  intros Hp. induction l as [|x l IH]; intros [|y k] Hlen; simpl in *;
    try done.
  rewrite Hp, IH; [done|lia].
Qed.

Lemma map_zip_with_r {A B C D : Type} (f : B → C) (g : A → B → D)
    (p : D → C) (l : list A) :
  (∀ x y, p (g x y) = f y) →
  ∀ k : list B, length l = length k → map p (zip_with g l k) = map f k.
Proof.
  intros Hp. induction l as [|x l IH]; intros [|y k] Hlen; simpl in *;
    try done.
  rewrite Hp, IH; [done|lia].
Qed.

Lemma batch_size_pos : (0 < App.batch_size)%nat.
Proof. unfold App.batch_size. lia. Qed.

Lemma batch_message_group (title body notification_data : pyval)
    (tokens : list pyval) (k : nat) :
  batch_message title body notification_data tokens (k * App.batch_size)
  = group_message title body notification_data tokens k.
Proof.
  unfold batch_message, group_message. by rewrite py_slice_group.
Qed.

(** ** Claims about [send_to_all] *)

Lemma multicast_calls_run (users : list DocumentSnapshot)
    (message : nat → MulticastMessage) (indices : list nat)
    (answers : list (result BatchResponse)) :
  multicast_calls
    (token_query (Ok users) ::
       zip_with (λ i a, SendMulticast (message i) a) indices answers)
  = zip_with (λ i a, (message i, a)) indices answers.
Proof.
  rewrite <- multicast_calls_zip. reflexivity.
Qed.

Lemma messages_built_at (w : World) (title body notification_data : pyval)
    (tokens : list pyval) (n i : nat) :
  messages_built w title body notification_data tokens = true →
  py_range (length tokens) App.batch_size !! n = Some i →
  dlv_multicast_message_raises (delivery w)
    {| n_title := title; n_body := body |} notification_data
    (py_slice tokens i (i + App.batch_size)) = None.
Proof.
  unfold messages_built, batches. intros Hbuilt Hi.
  rewrite forallb_forall in Hbuilt.
  specialize (Hbuilt (py_slice tokens i (i + App.batch_size))).
  destruct (dlv_multicast_message_raises _ _ _ _); [|done].
  discriminate Hbuilt.
  apply in_map_iff. exists i. split; [done|].
  apply list_elem_of_In. by eapply list_elem_of_lookup_2.
Qed.

Lemma all_returned_Forall {A B : Type} (calls : list (A * result B)) :
  all_returned calls = true → Forall (λ c, returned c.2) calls.
Proof.
  unfold all_returned. rewrite forallb_forall, Forall_forall.
  intros Hall c Hc. apply list_elem_of_In, Hall in Hc.
  by destruct (c.2).
Qed.

(** C1, as amended: for a send-to-all request with non-empty title and
    body and N > 0 eligible tokens, whenever the multicast message of
    every batch is built without raising and every multicast call
    returns without raising, the multicast call is made exactly
    ceil(N/500) times, the k-th call over the k-th consecutive group of
    at most 500 tokens in sequence order, successCount and failureCount
    are the sums of the per-call success and failure counts, and
    totalUsers is N. *)
Theorem send_to_all_batches (w : World) (h : list event) (request : Request)
    (d : gmap string pyval) (title body : pyval)
    (users : list DocumentSnapshot) :
  get_json request = Ok (PDict d) →
  d !! "title" = Some title → truthy title = true →
  d !! "body" = Some body → truthy body = true →
  dir_stream_where (directory w) h App.usuarios_registrados
    "fcmToken" "!=" PNone = Ok users →
  let tokens := eligible_tokens users in
  let N := length tokens in
  (0 < N)%nat →
  messages_built w title body (default (PDict ∅) (d !! "data")) tokens
    = true →
  ∃ calls resp,
    handle (App.send_to_all request) w h = (calls, Ok resp) ∧
    (Forall (λ c, returned c.2) (multicast_calls calls) →
     ∃ rs : list BatchResponse,
       length (multicast_calls calls) = ceil_div N 500 ∧
       multicast_calls calls =
         zip_with
           (λ k r, (group_message title body (default (PDict ∅) (d !! "data"))
                      tokens k, Ok r))
           (seq 0 (ceil_div N 500)) rs ∧
       length rs = ceil_div N 500 ∧
       concat (map (λ c, mm_tokens c.1) (multicast_calls calls)) = tokens ∧
       Forall (λ c, (0 < length (mm_tokens c.1) ≤ 500)%nat)
              (multicast_calls calls) ∧
       resp = all_sent N (sum_success rs) (sum_failure rs)).
Proof.
  intros Hjson Htitle Htt Hbody Hbt Husers tokens N HN Hbuilt.
  assert (eligible_tokens users ≠ []) as Hsome.
  { intros Hnil. subst N tokens. rewrite Hnil in HN. simpl in HN. lia. }
  destruct (send_to_all_batches_run w h request d title body users
              Hjson Htitle Htt Hbody Hbt Husers Hsome)
    as (answers & Hlen & Hcase).
  fold tokens in Hlen, Hcase.
  destruct Hcase as [Hcase|[Hcase|(rs & e & i & -> & Hi & Hraises & Hrun)]];
    [| |by rewrite (messages_built_at _ _ _ _ _ _ _ Hbuilt Hi) in Hraises].
  all: fold N in Hlen, Hcase.
  all: rewrite (py_range_closed N App.batch_size batch_size_pos)
         in Hlen, Hcase.
  all: change App.batch_size with 500%nat in Hlen, Hcase.
  all: set (count := ceil_div N 500) in *.
  all: rewrite length_map, length_seq in Hlen.
  - destruct Hcase as (rs & -> & Hrs & Hrun).
    rewrite length_map, length_seq in Hrs.
    eexists _, _. split; [apply handle_app, Hrun|]. intros _.
    rewrite multicast_calls_run.
    assert (zip_with
              (λ i a, (batch_message title body (default (PDict ∅) (d !! "data"))
                         tokens i, a))
              (map (λ k, (k * 500)%nat) (seq 0 count)) (map Ok rs)
            = zip_with
                (λ k r, (group_message title body
                           (default (PDict ∅) (d !! "data")) tokens k, Ok r))
                (seq 0 count) rs) as ->.
    { rewrite zip_with_fmap_l, zip_with_fmap_r.
      apply zip_with_ext; [|done..]. intros k r.
      by rewrite <- batch_message_group. }
    assert (map (λ c : MulticastMessage * result BatchResponse, mm_tokens c.1)
              (zip_with
                 (λ k r, (group_message title body
                            (default (PDict ∅) (d !! "data")) tokens k, Ok r))
                 (seq 0 count) rs)
            = map (group 500 tokens) (seq 0 count)) as Hgroups.
    { apply map_zip_with_l; [done|]. by rewrite length_seq. }
    exists rs. split_and!; try done.
    + rewrite length_zip_with, length_seq. lia.
    + rewrite Hgroups. apply concat_all_groups. lia.
    + assert (Forall (λ l : list pyval, (0 < length l ≤ 500)%nat)
                (map (group 500 tokens) (seq 0 count))) as Hall.
      { apply Forall_fmap, Forall_forall. intros k Hk.
        apply elem_of_seq in Hk. simpl. split.
        - apply group_nonempty; [lia|]. fold N. fold count. lia.
        - apply group_length_le. }
      rewrite <- Hgroups in Hall.
      by apply (Forall_fmap (λ c : MulticastMessage * result BatchResponse,
                               mm_tokens c.1)) in Hall.
  - destruct Hcase as (rs & e & -> & Hrun).
    eexists _, _. split; [apply handle_app, Hrun|]. intros Hall.
    rewrite multicast_calls_run in Hall.
    apply returned_zip in Hall.
    + by apply not_returned_raise in Hall.
    + by rewrite length_map, length_seq.
Qed.

Lemma send_to_all_batches_witness :
  ∃ calls resp rs,
    handle (App.send_to_all Example.hi_there)
           (Example.world 501 Example.accepting) [] = (calls, Ok resp) ∧
    length (multicast_calls calls) = 2%nat ∧
    map (λ c, length (mm_tokens c.1)) (multicast_calls calls)
      = [500; 1]%nat ∧
    length rs = 2%nat ∧
    resp = all_sent 501 (sum_success rs) (sum_failure rs).
Proof.
  edestruct (send_to_all_batches (Example.world 501 Example.accepting) []
               Example.hi_there
               (list_to_map [("title", PStr "Hi"); ("body", PStr "There")])
               (PStr "Hi") (PStr "There"))
    as (calls & resp & Hrun & Hok);
    [reflexivity | reflexivity | reflexivity | reflexivity | reflexivity
    | reflexivity | vm_compute; lia | vm_compute; reflexivity | ].
  assert (calls = (handle (App.send_to_all Example.hi_there)
                     (Example.world 501 Example.accepting) []).1) as Hcalls
    by (by rewrite Hrun).
  destruct Hok as (rs & Hcount & Hzip & Hrs & _ & _ & Hresp).
  { apply all_returned_Forall. rewrite Hcalls. vm_compute. reflexivity. }
  exists calls, resp, rs. split; [done|].
  split; [rewrite Hcount; vm_compute; reflexivity|].
  split; [|split; [rewrite Hrs; vm_compute; reflexivity|]].
  - vm_compute in Hrs. destruct rs as [|r1 [|r2 [|r3 rs]]]; try discriminate Hrs.
    rewrite Hzip. vm_compute. reflexivity.
  - rewrite Hresp. f_equal.
Defined.

(** With 501 eligible tokens and a backend that takes every call, two
    multicast calls are made, over 500 tokens and over 1 token. *)
Example send_to_all_501 :
  let out := handle (App.send_to_all Example.hi_there)
                    (Example.world 501 Example.accepting) [] in
  map (λ c, length (mm_tokens c.1)) (multicast_calls out.1) = [500; 1]%nat ∧
  out.2 = Ok (all_sent 501 501 0).
Proof. vm_compute. done. Qed.

(** C1, as stated, fails when the backend raises: with 501 eligible
    tokens and a backend that cannot be reached, the first multicast call
    raises, no second call is made although ceil(501/500) = 2, and the
    response is the status-500 error body, which has neither totalUsers
    nor successCount nor failureCount. *)
Lemma send_to_all_backend_raises :
  let w := Example.world 501 Example.unreachable in
  let out := handle (App.send_to_all Example.hi_there) w [] in
  (∃ users,
     dir_stream_where (directory w) [] App.usuarios_registrados
       "fcmToken" "!=" PNone = Ok users ∧
     length (eligible_tokens users) = 501%nat) ∧
  ceil_div 501 500 = 2%nat ∧
  length (multicast_calls out.1) = 1%nat ∧
  length (multicast_calls out.1) ≠ ceil_div 501 500 ∧
  ∃ resp,
    out.2 = Ok resp ∧ status resp = 500%Z ∧
    json resp !! "totalUsers" = None ∧
    json resp !! "successCount" = None ∧
    json resp !! "failureCount" = None.
Proof.
  split.
  { eexists. split; [reflexivity|]. vm_compute. reflexivity. }
  split; [vm_compute; reflexivity|].
  split; [vm_compute; reflexivity|].
  split; [vm_compute; discriminate|].
  exists (App.error_500 Example.unavailable).
  split; [vm_compute; reflexivity|]. done.
Qed.

(** C4: a send-to-all request with non-empty title and body for which the
    Directory yields no eligible token is answered with status 400 and
    the no-recipients error, and the only call made is the Directory
    query: no multicast (and no other delivery) call. *)
Theorem send_to_all_no_recipients (w : World) (h : list event)
    (request : Request) (d : gmap string pyval) (title body : pyval)
    (users : list DocumentSnapshot) :
  get_json request = Ok (PDict d) →
  d !! "title" = Some title → truthy title = true →
  d !! "body" = Some body → truthy body = true →
  dir_stream_where (directory w) h App.usuarios_registrados
    "fcmToken" "!=" PNone = Ok users →
  eligible_tokens users = [] →
  ∃ calls resp,
    handle (App.send_to_all request) w h = (calls, Ok resp) ∧
    status resp = 400%Z ∧
    json resp = {[ "error" := PStr "No hay usuarios con tokens FCM" ]} ∧
    calls = [token_query (Ok users)] ∧
    multicast_calls calls = [] ∧ send_calls calls = [].
Proof.
  intros Hjson Htitle Htt Hbody Hbt Husers Hnone.
  eexists _, _. split.
  - apply handle_app.
    by apply (send_to_all_no_tokens w h request d title body users).
  - done.
Qed.

Lemma send_to_all_no_recipients_witness :
  ∃ calls resp,
    handle (App.send_to_all Example.hi_there)
           (Example.world 0 Example.accepting) [] = (calls, Ok resp) ∧
    status resp = 400%Z ∧
    json resp = {[ "error" := PStr "No hay usuarios con tokens FCM" ]} ∧
    calls = [token_query (Ok [])] ∧
    multicast_calls calls = [] ∧ send_calls calls = [].
Proof.
  apply (send_to_all_no_recipients (Example.world 0 Example.accepting) []
           Example.hi_there
           (list_to_map [("title", PStr "Hi"); ("body", PStr "There")])
           (PStr "Hi") (PStr "There") []); reflexivity.
Defined.

(** C8, as amended: for a send-to-all request with non-empty title and
    body and at least one eligible token, whenever the multicast message
    of every batch is built without raising and every multicast call
    returns without raising, the response has status 200 and success true
    whatever counts the backend reported (also when every per-token
    delivery failed); the failures appear as failureCount, the sum of the
    reported failure counts, and the response has no error field. *)
Theorem send_to_all_partial_failure (w : World) (h : list event)
    (request : Request) (d : gmap string pyval) (title body : pyval)
    (users : list DocumentSnapshot) :
  get_json request = Ok (PDict d) →
  d !! "title" = Some title → truthy title = true →
  d !! "body" = Some body → truthy body = true →
  dir_stream_where (directory w) h App.usuarios_registrados
    "fcmToken" "!=" PNone = Ok users →
  eligible_tokens users ≠ [] →
  messages_built w title body (default (PDict ∅) (d !! "data"))
    (eligible_tokens users) = true →
  let out := handle (App.send_to_all request) w h in
  Forall (λ c, returned c.2) (multicast_calls out.1) →
  ∃ rs resp,
    multicast_calls out.1 ≠ [] ∧
    map snd (multicast_calls out.1) = map Ok rs ∧
    out.2 = Ok resp ∧
    status resp = 200%Z ∧
    json resp !! "success" = Some (PBool true) ∧
    json resp !! "error" = None ∧
    json resp !! "successCount" = Some (PInt (sum_success rs)) ∧
    json resp !! "failureCount" = Some (PInt (sum_failure rs)).
Proof.
  intros Hjson Htitle Htt Hbody Hbt Husers Hsome Hbuilt out Hall.
  destruct (send_to_all_batches_run w h request d title body users
              Hjson Htitle Htt Hbody Hbt Husers Hsome)
    as (answers & Hlen
          & [(rs & -> & Hrs & Hrun)
            |[(rs & e & -> & Hrun)
             |(rs & e & i & -> & Hi & Hraises & Hrun)]]);
    [| |by rewrite (messages_built_at _ _ _ _ _ _ _ Hbuilt Hi) in Hraises];
    apply handle_app in Hrun; subst out; rewrite Hrun in *;
    simpl fst in *; simpl snd in *;
    rewrite multicast_calls_run in *.
  - exists rs. eexists. split; [|split; [|split; [reflexivity|done]]].
    + intros Hnil. apply (f_equal length) in Hnil.
      rewrite length_zip_with, length_map, Hrs in Hnil. simpl in Hnil.
      rewrite (py_range_closed _ _ batch_size_pos) in Hnil.
      rewrite length_map, length_seq in Hnil.
      assert (length (eligible_tokens users) ≤ 0 * App.batch_size)%nat
        as Hzero
        by (apply (ceil_div_spec _ _ _ batch_size_pos); lia).
      destruct (eligible_tokens users); [done|simpl in Hzero; lia].
    + transitivity (map (λ a : result BatchResponse, a) (map Ok rs));
        [|apply map_id].
      apply map_zip_with_r; [done|]. by rewrite length_map.
  - apply returned_zip in Hall; [|done].
    by apply not_returned_raise in Hall.
Qed.

Lemma send_to_all_partial_failure_witness :
  let out := handle (App.send_to_all Example.hi_there)
                    (Example.world 3 Example.undelivering) [] in
  ∃ rs resp,
    multicast_calls out.1 ≠ [] ∧
    map snd (multicast_calls out.1) = map Ok rs ∧
    out.2 = Ok resp ∧
    status resp = 200%Z ∧
    json resp !! "success" = Some (PBool true) ∧
    json resp !! "error" = None ∧
    json resp !! "successCount" = Some (PInt (sum_success rs)) ∧
    json resp !! "failureCount" = Some (PInt (sum_failure rs)).
Proof.
  apply (send_to_all_partial_failure (Example.world 3 Example.undelivering) []
           Example.hi_there
           (list_to_map [("title", PStr "Hi"); ("body", PStr "There")])
           (PStr "Hi") (PStr "There") (Example.users 3));
    try reflexivity.
  - vm_compute. discriminate.
  - vm_compute. repeat constructor.
Defined.

(** C8, as stated, fails when a message cannot be built: with 500 users
    whose tokens are strings followed by one whose fcmToken is a number,
    the first multicast call is made and returns, the constructor of
    MulticastMessage rejects the second batch, no further call is made,
    and the response is the status-500 error body although every
    multicast call returned without raising. *)
Lemma send_to_all_unbuilt_message :
  let w := Example.world_with_number 500 Example.accepting in
  let out := handle (App.send_to_all Example.hi_there) w [] in
  map snd (multicast_calls out.1)
    = [Ok {| success_count := 500; failure_count := 0 |}] ∧
  Forall (λ c, returned c.2) (multicast_calls out.1) ∧
  ∃ resp,
    out.2 = Ok resp ∧ status resp = 500%Z ∧
    json resp !! "success" = None ∧
    json resp !! "error"
      = Some (PStr "MulticastMessage.tokens must not contain non-string values.").
Proof.
  split; [vm_compute; reflexivity|].
  split; [apply all_returned_Forall; vm_compute; reflexivity|].
  eexists. split; [vm_compute; reflexivity|]. done.
Qed.

(** With a backend that delivers to no token the request still succeeds
    and reports three failures. *)
Example send_to_all_all_failed :
  (handle (App.send_to_all Example.hi_there)
          (Example.world 3 Example.undelivering) []).2
  = Ok (all_sent 3 0 3).
Proof. vm_compute. reflexivity. Qed.

(** ** [send_to_user] *)

Section send_to_user.
Context (w : World) (h : list event) (request : Request).
Context (d : gmap string pyval) (user_id title body : pyval).

Hypothesis Hjson : get_json request = Ok (PDict d).
Hypothesis Huser_id : d !! "userId" = Some user_id.
Hypothesis Huser_id_truthy : truthy user_id = true.
Hypothesis Htitle : d !! "title" = Some title.
Hypothesis Htitle_truthy : truthy title = true.
Hypothesis Hbody : d !! "body" = Some body.
Hypothesis Hbody_truthy : truthy body = true.

Let channel_id := default (PStr "general_channel") (d !! "channelId").
Let lookup (answer : result (option (gmap string pyval))) : event :=
  DocumentGet App.usuarios_registrados user_id answer.

(** What a request with the three required fields does, by the answer
    of the Directory and of the backend. *)
Lemma send_to_user_run :
  App.send_to_user request w h =
    match dir_document_get (directory w) h App.usuarios_registrados user_id
    with
    | Raise e =>
        (h ++ [lookup (Raise e)], Ok (App.error_send_to_user e))
    | Ok None =>
        (h ++ [lookup (Ok None)], Ok (user_not_found user_id))
    | Ok (Some user_data) =>
        let h1 := h ++ [lookup (Ok (Some user_data))] in
        let fcm_token := dict_get user_data "fcmToken" in
        if truthy fcm_token then
          match default (PDict ∅) (d !! "data") with
          | PDict caller_data =>
              let message :=
                user_message title body channel_id fcm_token caller_data in
              match dlv_send (delivery w) h1 message with
              | Ok message_id =>
                  (h1 ++ [Send message (Ok message_id)],
                   Ok (user_sent message_id user_id
                         (dict_get user_data "email")))
              | Raise e =>
                  (h1 ++ [Send message (Raise e)],
                   Ok (App.error_send_to_user e))
              end
          | v =>
              (h1, Ok (App.error_send_to_user (TypeError_not_a_mapping v)))
          end
        else (h1, Ok (user_without_token user_id))
    end.
Proof.
  unfold App.send_to_user, user_message, channel_id, lookup. unfold_M.
  rewrite Hjson. simpl.
  rewrite Huser_id, Htitle, Hbody. simpl.
  rewrite Huser_id_truthy, Htitle_truthy, Hbody_truthy. simpl.
  destruct (dir_document_get (directory w) h App.usuarios_registrados
              user_id) as [[user_data|]|e]; try reflexivity.
  simpl. destruct (truthy (dict_get user_data "fcmToken")); [|reflexivity].
  simpl. destruct (default (PDict ∅) (d !! "data")); try reflexivity.
  simpl.
  match goal with
  | |- context [dlv_send ?dl ?hh ?m] => destruct (dlv_send dl hh m)
  end; reflexivity.
Qed.
End send_to_user.

(** Every run of [send_to_user] either ends before any call with a status
    other than 200, or has a body with the three required fields. *)
Lemma send_to_user_cases (w : World) (h : list event) (request : Request) :
  (∃ resp,
     App.send_to_user request w h = (h, Ok resp) ∧ status resp ≠ 200%Z)
  ∨
  (∃ d user_id title body,
     get_json request = Ok (PDict d) ∧
     d !! "userId" = Some user_id ∧ truthy user_id = true ∧
     d !! "title" = Some title ∧ truthy title = true ∧
     d !! "body" = Some body ∧ truthy body = true).
Proof.
  destruct (get_json request) as [data|e] eqn:Hjson.
  - destruct data as [| | | | | |d];
      try (left; eexists; unfold App.send_to_user; unfold_M;
           rewrite Hjson; simpl; split; [reflexivity|done]).
    destruct (d !! "userId") as [user_id|] eqn:Huser_id;
      [destruct (truthy user_id) eqn:Huser_id_truthy|];
      try (left; eexists; unfold App.send_to_user; unfold_M;
           rewrite Hjson; simpl; rewrite Huser_id; simpl;
           rewrite ?Huser_id_truthy; simpl; split; [reflexivity|done]).
    destruct (d !! "title") as [title|] eqn:Htitle;
      [destruct (truthy title) eqn:Htitle_truthy|];
      try (left; eexists; unfold App.send_to_user; unfold_M;
           rewrite Hjson; simpl; rewrite Huser_id, Htitle; simpl;
           rewrite Huser_id_truthy, ?Htitle_truthy; simpl;
           split; [reflexivity|done]).
    destruct (d !! "body") as [body|] eqn:Hbody;
      [destruct (truthy body) eqn:Hbody_truthy|];
      try (left; eexists; unfold App.send_to_user; unfold_M;
           rewrite Hjson; simpl; rewrite Huser_id, Htitle, Hbody; simpl;
           rewrite Huser_id_truthy, Htitle_truthy, ?Hbody_truthy; simpl;
           split; [reflexivity|done]).
    right. by exists d, user_id, title, body.
  - left. eexists. unfold App.send_to_user. unfold_M.
    rewrite Hjson. split; [reflexivity|done].
Qed.

(** ** Claims about [send_to_user] *)

(** C2, as amended: a send-to-user request whose JSON object lacks any of
    userId, title or body (absent or falsy) is answered with status 400
    and a body whose [required] entry is the fixed list of all three
    required fields, userId, title and body, whichever of them are
    missing; no call is made. *)
Theorem send_to_user_missing_fields (w : World) (h : list event)
    (request : Request) (d : gmap string pyval) :
  get_json request = Ok (PDict d) →
  missing_fields d ["userId"; "title"; "body"] ≠ [] →
  ∃ resp,
    handle (App.send_to_user request) w h = ([], Ok resp) ∧
    status resp = 400%Z ∧
    json resp !! "error" = Some (PStr "Faltan datos requeridos") ∧
    json resp !! "required"
      = Some (PList [PStr "userId"; PStr "title"; PStr "body"]).
Proof.
  intros Hjson Hmissing. exists user_fields_missing.
  split; [|done]. apply handle_app. rewrite app_nil_r.
  unfold missing_fields, dict_get in Hmissing.
  rewrite !filter_cons, filter_nil in Hmissing.
  unfold App.send_to_user. unfold_M. rewrite Hjson. simpl.
  destruct (d !! "userId") as [user_id|]; simpl in *; [|done].
  destruct (truthy user_id); simpl in *; [|done].
  destruct (d !! "title") as [title|]; simpl in *; [|done].
  destruct (truthy title); simpl in *; [|done].
  destruct (d !! "body") as [body|]; simpl in *; [|done].
  destruct (truthy body); simpl in *; [|done].
  repeat case_decide; done.
Qed.

Lemma send_to_user_missing_fields_witness :
  ∃ resp,
    handle (App.send_to_user
              (Example.post [("userId", PStr "u1"); ("body", PStr "There")]))
           (Example.world 3 Example.accepting) [] = ([], Ok resp) ∧
    status resp = 400%Z ∧
    json resp !! "error" = Some (PStr "Faltan datos requeridos") ∧
    json resp !! "required"
      = Some (PList [PStr "userId"; PStr "title"; PStr "body"]).
Proof.
  apply (send_to_user_missing_fields (Example.world 3 Example.accepting) []
           (Example.post [("userId", PStr "u1"); ("body", PStr "There")])
           (list_to_map [("userId", PStr "u1"); ("body", PStr "There")])).
  - reflexivity.
  - vm_compute. discriminate.
Defined.

(** C2, as stated, fails: a request that lacks only [title] is answered
    with the list of all three required fields, not with the list of the
    missing ones. *)
Lemma send_to_user_required_not_missing :
  let fields := [("userId", PStr "u1"); ("body", PStr "There")] in
  let out := handle (App.send_to_user (Example.post fields))
                    (Example.world 3 Example.accepting) [] in
  missing_fields (list_to_map fields) ["userId"; "title"; "body"] = ["title"] ∧
  ∃ resp,
    out.2 = Ok resp ∧ status resp = 400%Z ∧
    json resp !! "required"
      = Some (PList [PStr "userId"; PStr "title"; PStr "body"]) ∧
    json resp !! "required"
      ≠ Some (PList (map PStr (missing_fields (list_to_map fields)
                                 ["userId"; "title"; "body"]))).
Proof.
  split; [vm_compute; reflexivity|].
  exists user_fields_missing. split; [vm_compute; reflexivity|].
  split; [reflexivity|]. split; [reflexivity|].
  vm_compute. discriminate.
Qed.

(** C5: for a send-to-user request with non-empty userId, title and body,
    if the Directory has no record with that id the response is the
    not-found error with status 404, and if the record exists but its
    fcmToken is absent or empty the response is the missing-token error
    with status 400; in both cases the only call is the Directory lookup
    and no push-delivery call is made. *)
Theorem send_to_user_no_target (w : World) (h : list event)
    (request : Request) (d : gmap string pyval) (user_id title body : pyval) :
  get_json request = Ok (PDict d) →
  d !! "userId" = Some user_id → truthy user_id = true →
  d !! "title" = Some title → truthy title = true →
  d !! "body" = Some body → truthy body = true →
  (dir_document_get (directory w) h App.usuarios_registrados user_id = Ok None →
   ∃ calls resp,
     handle (App.send_to_user request) w h = (calls, Ok resp) ∧
     status resp = 404%Z ∧
     json resp !! "error" = Some (PStr "Usuario no encontrado") ∧
     json resp !! "userId" = Some user_id ∧
     calls = [DocumentGet App.usuarios_registrados user_id (Ok None)] ∧
     send_calls calls = [] ∧ multicast_calls calls = [])
  ∧
  (∀ user_data,
     dir_document_get (directory w) h App.usuarios_registrados user_id
       = Ok (Some user_data) →
     truthy (dict_get user_data "fcmToken") = false →
     ∃ calls resp,
       handle (App.send_to_user request) w h = (calls, Ok resp) ∧
       status resp = 400%Z ∧
       json resp !! "error" = Some (PStr "El usuario no tiene un token FCM") ∧
       json resp !! "userId" = Some user_id ∧
       calls = [DocumentGet App.usuarios_registrados user_id
                  (Ok (Some user_data))] ∧
       send_calls calls = [] ∧ multicast_calls calls = []).
Proof.
  intros Hjson Huser_id Hut Htitle Htt Hbody Hbt.
  pose proof (send_to_user_run w h request d user_id title body
                Hjson Huser_id Hut Htitle Htt Hbody Hbt) as Hrun.
  split.
  - intros Hlookup. rewrite Hlookup in Hrun.
    eexists _, (user_not_found user_id).
    split; [apply handle_app, Hrun|]. done.
  - intros user_data Hlookup Htoken. rewrite Hlookup in Hrun.
    cbv zeta in Hrun. rewrite Htoken in Hrun.
    eexists _, (user_without_token user_id).
    split; [apply handle_app, Hrun|]. done.
Qed.

(** C6: for a send-to-user request with valid fields whose Directory
    record has a non-empty fcmToken, the calls are the Directory lookup
    followed by exactly one push-delivery call, addressed to that token;
    when the backend returns a message identifier the response is the
    success body with that identifier, the request's userId and the
    record's email (null when absent), and when the backend raises the
    response is the status-500 error. *)
Theorem send_to_user_delivers (w : World) (h : list event)
    (request : Request) (d : gmap string pyval) (user_id title body : pyval)
    (caller_data user_data : gmap string pyval) :
  get_json request = Ok (PDict d) →
  d !! "userId" = Some user_id → truthy user_id = true →
  d !! "title" = Some title → truthy title = true →
  d !! "body" = Some body → truthy body = true →
  default (PDict ∅) (d !! "data") = PDict caller_data →
  dir_document_get (directory w) h App.usuarios_registrados user_id
    = Ok (Some user_data) →
  truthy (dict_get user_data "fcmToken") = true →
  let lookup :=
    DocumentGet App.usuarios_registrados user_id (Ok (Some user_data)) in
  let message :=
    user_message title body
      (default (PStr "general_channel") (d !! "channelId"))
      (dict_get user_data "fcmToken") caller_data in
  let answer := dlv_send (delivery w) (h ++ [lookup]) message in
  ∃ calls resp,
    handle (App.send_to_user request) w h = (calls, Ok resp) ∧
    calls = [lookup; Send message answer] ∧
    send_calls calls = [(message, answer)] ∧
    multicast_calls calls = [] ∧
    match answer with
    | Ok message_id =>
        status resp = 200%Z ∧
        json resp =
          {[ "success" := PBool true;
             "message" := PStr "Notificación enviada exitosamente";
             "messageId" := PStr message_id;
             "userId" := user_id;
             "email" := default PNone (user_data !! "email") ]}
    | Raise e => resp = App.error_send_to_user e
    end.
Proof.
  intros Hjson Huser_id Hut Htitle Htt Hbody Hbt Hdata Hlookup Htoken
    lookup message answer.
  pose proof (send_to_user_run w h request d user_id title body
                Hjson Huser_id Hut Htitle Htt Hbody Hbt) as Hrun.
  rewrite Hlookup in Hrun. cbv zeta in Hrun.
  rewrite Htoken, Hdata in Hrun.
  fold lookup in Hrun. fold message in Hrun. fold answer in Hrun.
  destruct answer as [message_id|e] eqn:Hanswer.
  - eexists _, _. split.
    { apply handle_app. rewrite Hrun, <- app_assoc. reflexivity. }
    split; [done|]. split; [done|]. split; [done|]. split; [done|].
    unfold user_sent, jsonify, json, dict_get. simpl.
    apply map_eq. intros key.
    repeat (rewrite lookup_insert; case_decide; [done|]).
    done.
  - eexists _, _. split.
    { apply handle_app. rewrite Hrun, <- app_assoc. reflexivity. }
    done.
Qed.

Lemma send_to_user_no_target_witness :
  (∃ calls resp,
     handle (App.send_to_user
               (Example.post [("userId", PStr "nobody"); ("title", PStr "Hi");
                              ("body", PStr "There")]))
            (Example.world 3 Example.accepting) [] = (calls, Ok resp) ∧
     status resp = 404%Z ∧
     json resp !! "error" = Some (PStr "Usuario no encontrado") ∧
     json resp !! "userId" = Some (PStr "nobody") ∧
     calls = [DocumentGet App.usuarios_registrados (PStr "nobody") (Ok None)] ∧
     send_calls calls = [] ∧ multicast_calls calls = [])
  ∧
  (∃ calls resp,
     handle (App.send_to_user
               (Example.post [("userId", PStr "u9"); ("title", PStr "Hi");
                              ("body", PStr "There")]))
            {| directory := Example.tokenless; delivery := Example.accepting |} []
       = (calls, Ok resp) ∧
     status resp = 400%Z ∧
     json resp !! "error" = Some (PStr "El usuario no tiene un token FCM") ∧
     json resp !! "userId" = Some (PStr "u9") ∧
     calls = [DocumentGet App.usuarios_registrados (PStr "u9")
                (Ok (Some {[ "email" := PStr "u9@example.org" ]}))] ∧
     send_calls calls = [] ∧ multicast_calls calls = []).
Proof.
  split.
  - apply (send_to_user_no_target (Example.world 3 Example.accepting) []
             (Example.post [("userId", PStr "nobody"); ("title", PStr "Hi");
                            ("body", PStr "There")])
             (list_to_map [("userId", PStr "nobody"); ("title", PStr "Hi");
                           ("body", PStr "There")])
             (PStr "nobody") (PStr "Hi") (PStr "There")); reflexivity.
  - apply (send_to_user_no_target
             {| directory := Example.tokenless; delivery := Example.accepting |} []
             (Example.post [("userId", PStr "u9"); ("title", PStr "Hi");
                            ("body", PStr "There")])
             (list_to_map [("userId", PStr "u9"); ("title", PStr "Hi");
                           ("body", PStr "There")])
             (PStr "u9") (PStr "Hi") (PStr "There")); reflexivity.
Defined.

(** The end-to-end example of the specification: user [u1], whose record
    holds the token [tok1]. *)
Lemma send_to_user_delivers_witness :
  ∃ calls resp message,
    handle (App.send_to_user
              (Example.post [("userId", PStr "u1"); ("title", PStr "Hi");
                             ("body", PStr "There")]))
           (Example.world 3 Example.accepting) [] = (calls, Ok resp) ∧
    send_calls calls = [(message, Ok "projects/demo/messages/1")] ∧
    msg_token message = Some (PStr "tok1") ∧
    status resp = 200%Z ∧
    json resp =
      {[ "success" := PBool true;
         "message" := PStr "Notificación enviada exitosamente";
         "messageId" := PStr "projects/demo/messages/1";
         "userId" := PStr "u1";
         "email" := PStr "u1@example.org" ]}.
Proof.
  destruct (send_to_user_delivers (Example.world 3 Example.accepting) []
              (Example.post [("userId", PStr "u1"); ("title", PStr "Hi");
                             ("body", PStr "There")])
              (list_to_map [("userId", PStr "u1"); ("title", PStr "Hi");
                            ("body", PStr "There")])
              (PStr "u1") (PStr "Hi") (PStr "There") ∅
              (to_dict (Example.user 1)))
    as (calls & resp & Hrun & _ & Hsend & _ & Hstatus & Hbody);
    try reflexivity.
  eexists calls, resp, _. split; [exact Hrun|].
  split; [exact Hsend|]. split; [reflexivity|]. split; [exact Hstatus|].
  rewrite Hbody. reflexivity.
Defined.

(** C10: in every successful send-to-user request, the data map of the
    one message submitted maps [channelId] to the request's channelId, or
    to [general_channel] when the request has none, whatever the caller's
    data map has under that key, and agrees with the caller's data map on
    every other key. *)
Theorem send_to_user_channel (w : World) (h : list event)
    (request : Request) (resp : Response) :
  let out := handle (App.send_to_user request) w h in
  out.2 = Ok resp → status resp = 200%Z →
  ∃ d caller_data message message_id m,
    get_json request = Ok (PDict d) ∧
    default (PDict ∅) (d !! "data") = PDict caller_data ∧
    send_calls out.1 = [(message, Ok message_id)] ∧
    msg_data message = PDict m ∧
    m !! "channelId"
      = Some (default (PStr "general_channel") (d !! "channelId")) ∧
    ∀ key, key ≠ "channelId" → m !! key = caller_data !! key.
Proof.
  intros out Hout Hstatus.
  destruct (send_to_user_cases w h request)
    as [(resp' & Hrun & Hne)
       |(d & user_id & title & body & Hjson & Huser_id & Hut & Htitle & Htt
           & Hbody & Hbt)].
  - rewrite <- (app_nil_r h) in Hrun at 2. apply handle_app in Hrun.
    subst out. rewrite Hrun in Hout. simpl in Hout. congruence.
  - pose proof (send_to_user_run w h request d user_id title body
                  Hjson Huser_id Hut Htitle Htt Hbody Hbt) as Hrun.
    cbv zeta in Hrun.
    destruct (dir_document_get (directory w) h App.usuarios_registrados
                user_id) as [[user_data|]|e].
    + destruct (truthy (dict_get user_data "fcmToken")).
      * destruct (default (PDict ∅) (d !! "data"))
          as [| | | | | |caller_data] eqn:Hdata;
          try (apply handle_app in Hrun; subst out; rewrite Hrun in Hout;
               simpl in Hout; injection Hout as <-; done).
        match type of Hrun with
        | context [dlv_send ?dl ?hh ?m] =>
            destruct (dlv_send dl hh m) as [message_id|e]
        end; rewrite <- app_assoc in Hrun; apply handle_app in Hrun;
          subst out; rewrite Hrun in *; simpl in Hout;
          injection Hout as <-; [|done].
        eexists d, caller_data, _, message_id, _.
        split; [done|]. split; [done|]. split; [reflexivity|].
        split; [reflexivity|]. split.
        -- apply lookup_insert_eq.
        -- intros key Hkey. by apply lookup_insert_ne.
      * apply handle_app in Hrun. subst out. rewrite Hrun in Hout.
        simpl in Hout. injection Hout as <-. done.
    + apply handle_app in Hrun. subst out. rewrite Hrun in Hout.
      simpl in Hout. injection Hout as <-. done.
    + apply handle_app in Hrun. subst out. rewrite Hrun in Hout.
      simpl in Hout. injection Hout as <-. done.
Qed.

Lemma send_to_user_channel_witness :
  let request :=
    Example.post
      [("userId", PStr "u1"); ("title", PStr "Hi"); ("body", PStr "There");
       ("channelId", PStr "promo");
       ("data", PDict {[ "channelId" := PStr "other";
                         "order" := PStr "42" ]})] in
  let out := handle (App.send_to_user request)
                    (Example.world 3 Example.accepting) [] in
  ∃ message message_id m,
    send_calls out.1 = [(message, Ok message_id)] ∧
    msg_data message = PDict m ∧
    m !! "channelId" = Some (PStr "promo") ∧
    m !! "order" = Some (PStr "42").
Proof.
  intros request out.
  destruct (send_to_user_channel (Example.world 3 Example.accepting) []
              request
              (user_sent "projects/demo/messages/1" (PStr "u1")
                 (PStr "u1@example.org")))
    as (d & caller_data & message & message_id & m & Hjson & Hdata & Hsend
          & Hm & Hchannel & Hother);
    [vm_compute; reflexivity | reflexivity |].
  exists message, message_id, m. fold out. split; [exact Hsend|].
  split; [exact Hm|].
  injection Hjson as <-.
  split.
  - rewrite Hchannel. reflexivity.
  - rewrite Hother by done. injection Hdata as <-. reflexivity.
Defined.

(** ** [send_to_topic] *)

(** Every run of [send_to_topic] returns a response and calls nothing but
    the messaging backend, and two runs that differ only in the Directory
    make the same calls and return the same response. *)
Lemma send_to_topic_calls (directory1 directory2 : Directory)
    (backend : Delivery) (h : list event) (request : Request) :
  ∃ evs resp,
    App.send_to_topic request
      {| directory := directory1; delivery := backend |} h
    = (h ++ evs, Ok resp) ∧
    App.send_to_topic request
      {| directory := directory2; delivery := backend |} h
    = (h ++ evs, Ok resp) ∧
    Forall (λ ev, is_directory_call ev = false) evs.
Proof.
  assert (∀ resp : Response, (h, Ok resp) = (h ++ [], Ok resp)) as Hnil
    by (intros; by rewrite app_nil_r).
  destruct (get_json request) as [data|e] eqn:Hjson.
  - destruct data as [| | | | | |d];
      try (eexists [], _; unfold App.send_to_topic; unfold_M;
           rewrite Hjson; simpl; split; [apply Hnil|split; [apply Hnil|done]]).
    destruct (d !! "topic") as [topic|] eqn:Htopic;
      [destruct (truthy topic) eqn:Htopic_truthy|];
      try (eexists [], _; unfold App.send_to_topic; unfold_M;
           rewrite Hjson; simpl; rewrite Htopic; simpl;
           rewrite ?Htopic_truthy; simpl;
           split; [apply Hnil|split; [apply Hnil|done]]).
    destruct (d !! "title") as [title|] eqn:Htitle;
      [destruct (truthy title) eqn:Htitle_truthy|];
      try (eexists [], _; unfold App.send_to_topic; unfold_M;
           rewrite Hjson; simpl; rewrite Htopic, Htitle; simpl;
           rewrite Htopic_truthy, ?Htitle_truthy; simpl;
           split; [apply Hnil|split; [apply Hnil|done]]).
    destruct (d !! "body") as [body|] eqn:Hbody;
      [destruct (truthy body) eqn:Hbody_truthy|];
      try (eexists [], _; unfold App.send_to_topic; unfold_M;
           rewrite Hjson; simpl; rewrite Htopic, Htitle, Hbody; simpl;
           rewrite Htopic_truthy, Htitle_truthy, ?Hbody_truthy; simpl;
           split; [apply Hnil|split; [apply Hnil|done]]).
    unfold App.send_to_topic. unfold_M. rewrite Hjson. simpl.
    rewrite Htopic, Htitle, Hbody. simpl.
    rewrite Htopic_truthy, Htitle_truthy, Hbody_truthy. simpl.
    match goal with
    | |- context [dlv_send ?dl ?hh ?m] => destruct (dlv_send dl hh m)
    end; eexists [_], _;
      (split; [reflexivity|split; [reflexivity|]]); by repeat constructor.
  - eexists [], _. unfold App.send_to_topic. unfold_M.
    rewrite Hjson. split; [apply Hnil|split; [apply Hnil|done]].
Qed.

(** C7: [send_to_topic] makes no Directory query, neither a point lookup
    nor a collection scan, and what it does (its calls and its response)
    is the same whatever Directory it runs against. *)
Theorem send_to_topic_no_directory (directory1 directory2 : Directory)
    (backend : Delivery) (h : list event) (request : Request) :
  let out1 := handle (App.send_to_topic request)
                {| directory := directory1; delivery := backend |} h in
  let out2 := handle (App.send_to_topic request)
                {| directory := directory2; delivery := backend |} h in
  out1 = out2 ∧
  Forall (λ ev, is_directory_call ev = false) out1.1 ∧
  ∃ resp, out1.2 = Ok resp.
Proof.
  intros out1 out2.
  destruct (send_to_topic_calls directory1 directory2 backend h request)
    as (evs & resp & Hrun1 & Hrun2 & Hcalls).
  apply handle_app in Hrun1, Hrun2. subst out1 out2.
  rewrite Hrun1, Hrun2. eauto.
Qed.

(** A topic message goes out, and is answered alike, in front of a
    populated and of an empty Directory. *)
Example send_to_topic_news :
  let request :=
    Example.post [("topic", PStr "news"); ("title", PStr "Hi");
                  ("body", PStr "There")] in
  let out := handle (App.send_to_topic request)
                    (Example.world 0 Example.accepting) [] in
  out = handle (App.send_to_topic request)
               (Example.world 3 Example.accepting) [] ∧
  map (λ c, msg_topic c.1) (send_calls out.1) = [Some (PStr "news")] ∧
  ∃ resp, out.2 = Ok resp ∧ status resp = 200%Z ∧
          json resp !! "topic" = Some (PStr "news").
Proof.
  split; [vm_compute; reflexivity|]. split; [vm_compute; reflexivity|].
  eexists. split; [vm_compute; reflexivity|]. done.
Qed.

(** ** [get_users] *)

Lemma user_entry_has_token (user : DocumentSnapshot) :
  entry_has_token (App.user_entry user)
  = truthy (dict_get (to_dict user) "fcmToken").
Proof.
  unfold App.user_entry, entry_has_token.
  change ((list_to_map
             [("id", PStr (snap_id user));
              ("email", dict_get (to_dict user) "email");
              ("hasToken",
               PBool (truthy (dict_get (to_dict user) "fcmToken")))]
           : gmap string pyval) !! "hasToken")
    with (Some (PBool (truthy (dict_get (to_dict user) "fcmToken")))).
  by destruct (truthy (dict_get (to_dict user) "fcmToken")).
Qed.

Lemma users_list_loop (w : World) (h : list event)
    (users : list DocumentSnapshot) :
  ∀ users_list : list pyval,
    for_each users users_list
      (λ users_list user, mret (users_list ++ [App.user_entry user])) w h
    = (h, Ok (users_list ++ map App.user_entry users)).
Proof.
  induction users as [|user users IH]; intros users_list.
  - simpl. by rewrite ret_run, app_nil_r.
  - rewrite for_each_cons, ret_run, IH. simpl. by rewrite <- app_assoc.
Qed.

Lemma with_tokens_loop (w : World) (h : list event)
    (users : list DocumentSnapshot) :
  ∀ count : Z,
    for_each (map App.user_entry users) count
      (λ count u,
         hasToken ← py_getitem u "hasToken";
         if truthy hasToken then mret (count + 1)%Z else mret count) w h
    = (h, Ok (count
              + Z.of_nat (count_with_token (map App.user_entry users)))%Z).
Proof.
  unfold count_with_token.
  induction users as [|user users IH]; intros count.
  - simpl. by rewrite ret_run, Z.add_0_r.
  - change (map App.user_entry (user :: users))
      with (App.user_entry user :: map App.user_entry users).
    rewrite for_each_cons, bind_run, filter_cons.
    rewrite user_entry_has_token.
    change (py_getitem (App.user_entry user) "hasToken" w h)
      with (h, Ok (PBool (truthy (dict_get (to_dict user) "fcmToken")))).
    cbv beta iota.
    destruct (truthy (dict_get (to_dict user) "fcmToken")); cbn [truthy];
      cbv iota; rewrite ret_run, IH.
    + rewrite decide_True by done. simpl length. do 2 f_equal. lia.
    + rewrite decide_False by done. done.
Qed.

(** What [get_users] does, by the answer of the Directory. *)
Lemma get_users_run (w : World) (h : list event) :
  App.get_users w h =
    match dir_stream (directory w) h App.usuarios_registrados with
    | Ok users =>
        (h ++ [Stream App.usuarios_registrados (Ok users)],
         Ok (users_listed (map App.user_entry users)))
    | Raise e =>
        (h ++ [Stream App.usuarios_registrados (Raise e)],
         Ok (App.error_500 e))
    end.
Proof.
  unfold App.get_users, try_except. rewrite bind_run. unfold stream.
  destruct (dir_stream (directory w) h App.usuarios_registrados)
    as [users|e]; [|reflexivity].
  rewrite bind_run, users_list_loop, bind_run. simpl app.
  rewrite with_tokens_loop. reflexivity.
Qed.

Lemma truthy_optional_string (user : DocumentSnapshot) :
  token_optional_string user →
  truthy (dict_get (to_dict user) "fcmToken") = true
  ↔ ∃ s, to_dict user !! "fcmToken" = Some (PStr s) ∧ s ≠ "".
Proof.
  unfold token_optional_string, dict_get.
  destruct (to_dict user !! "fcmToken") as [[| | | |s| |]|]; simpl;
    intros Htyped; try done; split;
    try (by intros (s' & [=] & _)); try done.
  - intros Hs. exists s. split; [done|]. by destruct s.
  - intros (s' & [= <-] & Hs). by destruct s.
Qed.

(** ** Claims about [get_users] *)

(** C3, as amended: in every ListUsers response, withTokens is the number
    of entries of the returned users list whose hasToken is true; each
    entry's hasToken is the truth value of the underlying record's
    fcmToken; and for a record whose fcmToken is absent, null or a
    string, hasToken is true exactly when fcmToken is a non-empty
    string. *)
Theorem get_users_projection (w : World) (h : list event)
    (users : list DocumentSnapshot) :
  dir_stream (directory w) h App.usuarios_registrados = Ok users →
  ∃ calls resp entries,
    handle App.get_users w h = (calls, Ok resp) ∧
    status resp = 200%Z ∧
    json resp !! "users" = Some (PList entries) ∧
    json resp !! "total" = Some (PInt (Z.of_nat (length entries))) ∧
    json resp !! "withTokens"
      = Some (PInt (Z.of_nat
                      (length (filter (λ entry, entry_has_token entry = true)
                                      entries)))) ∧
    Forall2
      (λ user entry,
         entry_has_token entry = truthy (dict_get (to_dict user) "fcmToken") ∧
         (token_optional_string user →
          entry_has_token entry = true
          ↔ ∃ s, to_dict user !! "fcmToken" = Some (PStr s) ∧ s ≠ ""))
      users entries.
Proof.
  intros Husers.
  pose proof (get_users_run w h) as Hrun. rewrite Husers in Hrun.
  apply handle_app in Hrun.
  eexists _, _, (map App.user_entry users). split; [exact Hrun|].
  split; [done|]. split; [done|]. split; [done|]. split; [done|].
  clear Husers Hrun.
  induction users as [|user users IH]; simpl; constructor; [|exact IH].
  split; [apply user_entry_has_token|].
  intros Htyped. rewrite user_entry_has_token.
  by apply truthy_optional_string.
Qed.

Lemma get_users_projection_witness :
  ∃ calls resp entries,
    handle App.get_users
           {| directory := Example.memory_directory Example.mixed_users;
              delivery := Example.accepting |} [] = (calls, Ok resp) ∧
    json resp !! "users" = Some (PList entries) ∧
    json resp !! "total" = Some (PInt 3) ∧
    json resp !! "withTokens" = Some (PInt 1) ∧
    map entry_has_token entries = [true; false; false].
Proof.
  destruct (get_users_projection
              {| directory := Example.memory_directory Example.mixed_users;
                 delivery := Example.accepting |} [] Example.mixed_users)
    as (calls & resp & entries & Hrun & _ & Husers & Htotal & Hwith & _);
    [reflexivity |].
  exists calls, resp, entries. split; [exact Hrun|]. split; [exact Husers|].
  assert (resp = users_listed (map App.user_entry Example.mixed_users)) as ->.
  { vm_compute in Hrun. injection Hrun as _ <-. vm_compute. reflexivity. }
  injection Husers as <-.
  split; [reflexivity|]. split; reflexivity.
Defined.

(** C3, as stated, fails for a token that is not a string: the record
    [u7], whose fcmToken is the number 7, is listed with hasToken true
    and counted in withTokens, although its fcmToken is not a non-empty
    string. *)
Lemma get_users_number_token :
  let w := {| directory := Example.memory_directory [Example.numbered];
              delivery := Example.accepting |} in
  to_dict Example.numbered !! "fcmToken" = Some (PInt 7) ∧
  (¬ ∃ s, to_dict Example.numbered !! "fcmToken" = Some (PStr s) ∧ s ≠ "") ∧
  ∃ calls resp entry,
    handle App.get_users w [] = (calls, Ok resp) ∧
    status resp = 200%Z ∧
    json resp !! "users" = Some (PList [entry]) ∧
    entry
      = PDict (list_to_map [("id", PStr "u7"); ("email", PNone);
                            ("hasToken", PBool true)]) ∧
    entry_has_token entry = true ∧
    json resp !! "withTokens" = Some (PInt 1).
Proof.
  split; [reflexivity|]. split; [by intros (s & [=] & _)|].
  eexists _, _, _. split; [vm_compute; reflexivity|].
  split; [reflexivity|]. split; [vm_compute; reflexivity|].
  split; [vm_compute; reflexivity|]. split; reflexivity.
Qed.

(** C9: two ListUsers calls that see the same records, possibly
    enumerated in a different order, return the same projection: the same
    total, the same withTokens, and users lists that are permutations of
    one another (and equal responses when the order is the same). *)
Theorem get_users_idempotent (w1 w2 : World) (h1 h2 : list event)
    (users1 users2 : list DocumentSnapshot) :
  dir_stream (directory w1) h1 App.usuarios_registrados = Ok users1 →
  dir_stream (directory w2) h2 App.usuarios_registrados = Ok users2 →
  users1 ≡ₚ users2 →
  ∃ entries1 entries2,
    (handle App.get_users w1 h1).2 = Ok (users_listed entries1) ∧
    (handle App.get_users w2 h2).2 = Ok (users_listed entries2) ∧
    entries1 ≡ₚ entries2 ∧
    json (users_listed entries1) !! "total"
      = json (users_listed entries2) !! "total" ∧
    json (users_listed entries1) !! "withTokens"
      = json (users_listed entries2) !! "withTokens" ∧
    (users1 = users2 → users_listed entries1 = users_listed entries2).
Proof.
  intros Husers1 Husers2 Hperm.
  pose proof (get_users_run w1 h1) as Hrun1. rewrite Husers1 in Hrun1.
  pose proof (get_users_run w2 h2) as Hrun2. rewrite Husers2 in Hrun2.
  apply handle_app in Hrun1, Hrun2.
  exists (map App.user_entry users1), (map App.user_entry users2).
  rewrite Hrun1, Hrun2.
  assert (map App.user_entry users1 ≡ₚ map App.user_entry users2) as Hentries
    by (by apply Permutation_map).
  split; [done|]. split; [done|]. split; [done|].
  split; [|split].
  - change (Some (PInt (Z.of_nat (length (map App.user_entry users1))))
            = Some (PInt (Z.of_nat (length (map App.user_entry users2))))).
    by rewrite (Permutation_length Hentries).
  - change (Some (PInt (Z.of_nat
                          (count_with_token (map App.user_entry users1))))
            = Some (PInt (Z.of_nat
                            (count_with_token (map App.user_entry users2))))).
    unfold count_with_token.
    assert (filter (λ entry, entry_has_token entry = true)
              (map App.user_entry users1)
            ≡ₚ filter (λ entry, entry_has_token entry = true)
                 (map App.user_entry users2)) as Hfilter
      by (by rewrite Hentries).
    by rewrite (Permutation_length Hfilter).
  - by intros ->.
Qed.

Lemma get_users_idempotent_witness :
  ∃ entries1 entries2,
    (handle App.get_users
            {| directory := Example.memory_directory Example.mixed_users;
               delivery := Example.accepting |} []).2
      = Ok (users_listed entries1) ∧
    (handle App.get_users
            {| directory := Example.memory_directory (reverse Example.mixed_users);
               delivery := Example.accepting |} []).2
      = Ok (users_listed entries2) ∧
    entries1 ≡ₚ entries2 ∧
    json (users_listed entries1) !! "total"
      = json (users_listed entries2) !! "total" ∧
    json (users_listed entries1) !! "withTokens"
      = json (users_listed entries2) !! "withTokens".
Proof.
  destruct (get_users_idempotent
              {| directory := Example.memory_directory Example.mixed_users;
                 delivery := Example.accepting |}
              {| directory := Example.memory_directory (reverse Example.mixed_users);
                 delivery := Example.accepting |} [] []
              Example.mixed_users (reverse Example.mixed_users))
    as (entries1 & entries2 & H1 & H2 & Hperm & Htotal & Hwith & _);
    [reflexivity | reflexivity | symmetry; apply reverse_Permutation |].
  exists entries1, entries2. split; [exact H1|]. split; [exact H2|].
  split; [exact Hperm|]. split; [exact Htotal|exact Hwith].
Defined.

(** * Further properties of the handlers *)

(** ** Runs that end before any call *)

Lemma missing_fields_nil_2 (d : gmap string pyval) (k1 k2 : string) :
  missing_fields d [k1; k2] = [] →
  ∃ v1 v2, d !! k1 = Some v1 ∧ truthy v1 = true ∧
           d !! k2 = Some v2 ∧ truthy v2 = true.
Proof.
  unfold missing_fields, dict_get. rewrite !filter_cons, filter_nil.
  destruct (d !! k1) as [v1|]; simpl; [|done].
  destruct (truthy v1) eqn:H1; [|done]. rewrite decide_False by done.
  destruct (d !! k2) as [v2|]; simpl; [|done].
  destruct (truthy v2) eqn:H2; [|done]. intros _. by exists v1, v2.
Qed.

Lemma missing_fields_nil_3 (d : gmap string pyval) (k1 k2 k3 : string) :
  missing_fields d [k1; k2; k3] = [] →
  ∃ v1 v2 v3, d !! k1 = Some v1 ∧ truthy v1 = true ∧
              d !! k2 = Some v2 ∧ truthy v2 = true ∧
              d !! k3 = Some v3 ∧ truthy v3 = true.
Proof.
  unfold missing_fields, dict_get. rewrite !filter_cons, filter_nil.
  destruct (d !! k1) as [v1|]; simpl; [|done].
  destruct (truthy v1) eqn:H1; [|done]. rewrite decide_False by done.
  destruct (d !! k2) as [v2|]; simpl; [|done].
  destruct (truthy v2) eqn:H2; [|done]. rewrite decide_False by done.
  destruct (d !! k3) as [v3|]; simpl; [|done].
  destruct (truthy v3) eqn:H3; [|done]. intros _. by exists v1, v2, v3.
Qed.

Lemma send_to_user_missing_run (w : World) (h : list event)
    (request : Request) (d : gmap string pyval) :
  get_json request = Ok (PDict d) →
  missing_fields d ["userId"; "title"; "body"] ≠ [] →
  App.send_to_user request w h = (h, Ok user_fields_missing).
Proof.
  intros Hjson Hmissing.
  unfold missing_fields, dict_get in Hmissing.
  rewrite !filter_cons, filter_nil in Hmissing.
  unfold App.send_to_user. unfold_M. rewrite Hjson. simpl.
  destruct (d !! "userId") as [user_id|]; simpl in *; [|done].
  destruct (truthy user_id); simpl in *; [|done].
  destruct (d !! "title") as [title|]; simpl in *; [|done].
  destruct (truthy title); simpl in *; [|done].
  destruct (d !! "body") as [body|]; simpl in *; [|done].
  destruct (truthy body); simpl in *; [|done].
  repeat case_decide; done.
Qed.

Lemma send_to_all_missing_run (w : World) (h : list event)
    (request : Request) (d : gmap string pyval) :
  get_json request = Ok (PDict d) →
  missing_fields d ["title"; "body"] ≠ [] →
  App.send_to_all request w h = (h, Ok all_fields_missing).
Proof.
  intros Hjson Hmissing.
  unfold missing_fields, dict_get in Hmissing.
  rewrite !filter_cons, filter_nil in Hmissing.
  unfold App.send_to_all. unfold_M. rewrite Hjson. simpl.
  destruct (d !! "title") as [title|]; simpl in *; [|done].
  destruct (truthy title); simpl in *; [|done].
  destruct (d !! "body") as [body|]; simpl in *; [|done].
  destruct (truthy body); simpl in *; [|done].
  repeat case_decide; done.
Qed.

Lemma send_to_topic_missing_run (w : World) (h : list event)
    (request : Request) (d : gmap string pyval) :
  get_json request = Ok (PDict d) →
  missing_fields d ["topic"; "title"; "body"] ≠ [] →
  App.send_to_topic request w h = (h, Ok topic_fields_missing).
Proof.
  intros Hjson Hmissing.
  unfold missing_fields, dict_get in Hmissing.
  rewrite !filter_cons, filter_nil in Hmissing.
  unfold App.send_to_topic. unfold_M. rewrite Hjson. simpl.
  destruct (d !! "topic") as [topic|]; simpl in *; [|done].
  destruct (truthy topic); simpl in *; [|done].
  destruct (d !! "title") as [title|]; simpl in *; [|done].
  destruct (truthy title); simpl in *; [|done].
  destruct (d !! "body") as [body|]; simpl in *; [|done].
  destruct (truthy body); simpl in *; [|done].
  repeat case_decide; done.
Qed.

Lemma non_object_run (w : World) (h : list event) (request : Request)
    (data : pyval) :
  get_json request = Ok data →
  is_dict data = false →
  App.send_to_user request w h
    = (h, Ok (App.error_send_to_user (AttributeError data "get"))) ∧
  App.send_to_all request w h
    = (h, Ok (App.error_500 (AttributeError data "get"))) ∧
  App.send_to_topic request w h
    = (h, Ok (App.error_500 (AttributeError data "get"))).
Proof.
  intros Hjson Hdata.
  split_and!;
    unfold App.send_to_user, App.send_to_all, App.send_to_topic; unfold_M;
    rewrite Hjson; by destruct data.
Qed.

Lemma unreadable_run (w : World) (h : list event) (request : Request)
    (e : exn) :
  get_json request = Raise e →
  App.send_to_user request w h = (h, Ok (App.error_send_to_user e)) ∧
  App.send_to_all request w h = (h, Ok (App.error_500 e)) ∧
  App.send_to_topic request w h = (h, Ok (App.error_500 e)).
Proof.
  intros Hjson.
  split_and!;
    unfold App.send_to_user, App.send_to_all, App.send_to_topic; unfold_M;
    by rewrite Hjson.
Qed.

Lemma handle_nil {A : Type} (m : M A) (w : World) (h : list event)
    (r : result A) :
  m w h = (h, r) → handle m w h = ([], r).
Proof.
  intros Hm. apply handle_app. by rewrite app_nil_r.
Qed.

(** ** Validation and malformed bodies *)

(** X1: a send-to-all request whose JSON object lacks title or body
    (absent or falsy) is answered with status 400 and the list of the two
    required fields, before any call: the Directory is not queried. *)
Theorem send_to_all_missing_fields (w : World) (h : list event)
    (request : Request) (d : gmap string pyval) :
  get_json request = Ok (PDict d) →
  missing_fields d ["title"; "body"] ≠ [] →
  handle (App.send_to_all request) w h = ([], Ok all_fields_missing) ∧
  status all_fields_missing = 400%Z ∧
  json all_fields_missing !! "required"
    = Some (PList [PStr "title"; PStr "body"]).
Proof.
  intros Hjson Hmissing. split; [|done].
  by apply handle_nil, (send_to_all_missing_run w h request d).
Qed.

Lemma send_to_all_missing_fields_witness :
  handle (App.send_to_all
            (Example.post [("title", PStr ""); ("body", PStr "There")]))
         (Example.world 3 Example.accepting) [] = ([], Ok all_fields_missing) ∧
  status all_fields_missing = 400%Z ∧
  json all_fields_missing !! "required"
    = Some (PList [PStr "title"; PStr "body"]).
Proof.
  apply (send_to_all_missing_fields (Example.world 3 Example.accepting) []
           (Example.post [("title", PStr ""); ("body", PStr "There")])
           (list_to_map [("title", PStr ""); ("body", PStr "There")])).
  - reflexivity.
  - vm_compute. discriminate.
Defined.

(** X2: a send-to-topic request whose JSON object lacks topic, title or
    body (absent or falsy) is answered with status 400 and the list of
    the three required fields, and nothing is submitted to the backend. *)
Theorem send_to_topic_missing_fields (w : World) (h : list event)
    (request : Request) (d : gmap string pyval) :
  get_json request = Ok (PDict d) →
  missing_fields d ["topic"; "title"; "body"] ≠ [] →
  handle (App.send_to_topic request) w h = ([], Ok topic_fields_missing) ∧
  status topic_fields_missing = 400%Z ∧
  json topic_fields_missing !! "required"
    = Some (PList [PStr "topic"; PStr "title"; PStr "body"]).
Proof.
  intros Hjson Hmissing. split; [|done].
  by apply handle_nil, (send_to_topic_missing_run w h request d).
Qed.

Lemma send_to_topic_missing_fields_witness :
  handle (App.send_to_topic
            (Example.post [("title", PStr "Hi"); ("body", PStr "There")]))
         (Example.world 3 Example.accepting) []
    = ([], Ok topic_fields_missing) ∧
  status topic_fields_missing = 400%Z ∧
  json topic_fields_missing !! "required"
    = Some (PList [PStr "topic"; PStr "title"; PStr "body"]).
Proof.
  apply (send_to_topic_missing_fields (Example.world 3 Example.accepting) []
           (Example.post [("title", PStr "Hi"); ("body", PStr "There")])
           (list_to_map [("title", PStr "Hi"); ("body", PStr "There")])).
  - reflexivity.
  - vm_compute. discriminate.
Defined.

(** X3: a body that is valid JSON but not an object (a list, a string, a
    number, a boolean, null) is not a validation error: each of the three
    POST handlers answers with status 500 and the text of the
    [AttributeError] that [data.get] raises, and makes no call. *)
Theorem non_object_body_is_500 (w : World) (h : list event)
    (request : Request) (data : pyval) :
  get_json request = Ok data →
  is_dict data = false →
  let e := AttributeError data "get" in
  handle (App.send_to_user request) w h
    = ([], Ok (App.error_send_to_user e)) ∧
  handle (App.send_to_all request) w h = ([], Ok (App.error_500 e)) ∧
  handle (App.send_to_topic request) w h = ([], Ok (App.error_500 e)) ∧
  status (App.error_send_to_user e) = 500%Z ∧
  status (App.error_500 e) = 500%Z ∧
  exn_str e = "'" +:+ type_name data +:+ "' object has no attribute 'get'".
Proof.
  intros Hjson Hdata e.
  destruct (non_object_run w h request data Hjson Hdata)
    as (Huser & Hall & Htopic).
  split_and!; try done; by apply handle_nil.
Qed.

Lemma non_object_body_is_500_witness :
  let request := {| get_json := Ok (PList [PStr "Hi"]) |} in
  let e := AttributeError (PList [PStr "Hi"]) "get" in
  handle (App.send_to_user request) (Example.world 3 Example.accepting) []
    = ([], Ok (App.error_send_to_user e)) ∧
  handle (App.send_to_all request) (Example.world 3 Example.accepting) []
    = ([], Ok (App.error_500 e)) ∧
  handle (App.send_to_topic request) (Example.world 3 Example.accepting) []
    = ([], Ok (App.error_500 e)) ∧
  status (App.error_send_to_user e) = 500%Z ∧
  status (App.error_500 e) = 500%Z ∧
  exn_str e = "'list' object has no attribute 'get'".
Proof.
  apply (non_object_body_is_500 (Example.world 3 Example.accepting) []
           {| get_json := Ok (PList [PStr "Hi"]) |} (PList [PStr "Hi"]));
    reflexivity.
Defined.

(** X4: when [request.get_json()] itself raises, each of the three POST
    handlers answers with status 500 and the text of that exception
    (under [details] in send-to-user, under [error] in the other two),
    and makes no call. *)
Theorem unreadable_body_is_500 (w : World) (h : list event)
    (request : Request) (e : exn) :
  get_json request = Raise e →
  handle (App.send_to_user request) w h
    = ([], Ok (App.error_send_to_user e)) ∧
  handle (App.send_to_all request) w h = ([], Ok (App.error_500 e)) ∧
  handle (App.send_to_topic request) w h = ([], Ok (App.error_500 e)) ∧
  json (App.error_send_to_user e) !! "details" = Some (PStr (exn_str e)) ∧
  json (App.error_500 e) !! "error" = Some (PStr (exn_str e)).
Proof.
  intros Hjson.
  destruct (unreadable_run w h request e Hjson) as (Huser & Hall & Htopic).
  split_and!; try done; by apply handle_nil.
Qed.

Lemma unreadable_body_is_500_witness :
  let e := Exn "BadRequest" "400 Bad Request: Failed to decode JSON object" in
  let request := {| get_json := Raise e |} in
  handle (App.send_to_user request) (Example.world 3 Example.accepting) []
    = ([], Ok (App.error_send_to_user e)) ∧
  handle (App.send_to_all request) (Example.world 3 Example.accepting) []
    = ([], Ok (App.error_500 e)) ∧
  handle (App.send_to_topic request) (Example.world 3 Example.accepting) []
    = ([], Ok (App.error_500 e)) ∧
  json (App.error_send_to_user e) !! "details" = Some (PStr (exn_str e)) ∧
  json (App.error_500 e) !! "error" = Some (PStr (exn_str e)).
Proof.
  apply (unreadable_body_is_500 (Example.world 3 Example.accepting) []
           {| get_json :=
                Raise (Exn "BadRequest"
                         "400 Bad Request: Failed to decode JSON object") |});
    reflexivity.
Defined.

(** ** [send_to_topic], continued *)

Section send_to_topic.
Context (w : World) (h : list event) (request : Request).
Context (d : gmap string pyval) (topic title body : pyval).

Hypothesis Hjson : get_json request = Ok (PDict d).
Hypothesis Htopic : d !! "topic" = Some topic.
Hypothesis Htopic_truthy : truthy topic = true.
Hypothesis Htitle : d !! "title" = Some title.
Hypothesis Htitle_truthy : truthy title = true.
Hypothesis Hbody : d !! "body" = Some body.
Hypothesis Hbody_truthy : truthy body = true.

(** What a request with the three required fields does, by the answer
    of the backend. *)
Lemma send_to_topic_run :
  let message :=
    topic_message title body (default (PDict ∅) (d !! "data")) topic in
  App.send_to_topic request w h =
    match dlv_send (delivery w) h message with
    | Ok message_id =>
        (h ++ [Send message (Ok message_id)],
         Ok (topic_sent message_id topic))
    | Raise e => (h ++ [Send message (Raise e)], Ok (App.error_500 e))
    end.
Proof.
  unfold App.send_to_topic, topic_message. unfold_M. rewrite Hjson. simpl.
  rewrite Htopic, Htitle, Hbody. simpl.
  rewrite Htopic_truthy, Htitle_truthy, Hbody_truthy. simpl.
  match goal with
  | |- context [dlv_send ?dl ?hh ?m] => destruct (dlv_send dl hh m)
  end; reflexivity.
Qed.
End send_to_topic.

(** X5: a send-to-topic request with non-empty topic, title and body
    makes exactly one call, a single send of a message addressed to the
    topic (and to no token) whose data is the request's data as given
    (an empty dict when absent, no channelId added) and whose Android
    channel is always general_channel; the response is the success body
    with the backend's message id and the topic, or the status-500 error
    with the exception's text when the backend raises. *)
Theorem send_to_topic_delivers (w : World) (h : list event)
    (request : Request) (d : gmap string pyval) (topic title body : pyval) :
  get_json request = Ok (PDict d) →
  d !! "topic" = Some topic → truthy topic = true →
  d !! "title" = Some title → truthy title = true →
  d !! "body" = Some body → truthy body = true →
  let message :=
    topic_message title body (default (PDict ∅) (d !! "data")) topic in
  let answer := dlv_send (delivery w) h message in
  ∃ resp,
    handle (App.send_to_topic request) w h
      = ([Send message answer], Ok resp) ∧
    msg_topic message = Some topic ∧ msg_token message = None ∧
    msg_data message = default (PDict ∅) (d !! "data") ∧
    match answer with
    | Ok message_id =>
        status resp = 200%Z ∧
        json resp =
          {[ "success" := PBool true;
             "message" := PStr "Notificación enviada al tópico";
             "messageId" := PStr message_id;
             "topic" := topic ]}
    | Raise e =>
        status resp = 500%Z ∧ json resp = {[ "error" := PStr (exn_str e) ]}
    end.
Proof.
  intros Hjson Htopic Htt Htitle Hti Hbody Hbt message answer.
  pose proof (send_to_topic_run w h request d topic title body
                Hjson Htopic Htt Htitle Hti Hbody Hbt) as Hrun.
  cbv zeta in Hrun. fold message in Hrun. fold answer in Hrun.
  destruct answer as [message_id|e].
  - eexists. split; [apply handle_app, Hrun|]. by split_and!.
  - eexists. split; [apply handle_app, Hrun|]. done.
Qed.

Lemma send_to_topic_delivers_witness :
  ∃ resp message,
    handle (App.send_to_topic
              (Example.post [("topic", PStr "news"); ("title", PStr "Hi");
                             ("body", PStr "There");
                             ("channelId", PStr "promo")]))
           (Example.world 0 Example.accepting) []
      = ([Send message (Ok "projects/demo/messages/1")], Ok resp) ∧
    msg_topic message = Some (PStr "news") ∧
    msg_data message = PDict ∅ ∧
    status resp = 200%Z ∧
    json resp !! "messageId" = Some (PStr "projects/demo/messages/1").
Proof.
  destruct (send_to_topic_delivers (Example.world 0 Example.accepting) []
              (Example.post [("topic", PStr "news"); ("title", PStr "Hi");
                             ("body", PStr "There");
                             ("channelId", PStr "promo")])
              (list_to_map [("topic", PStr "news"); ("title", PStr "Hi");
                            ("body", PStr "There");
                            ("channelId", PStr "promo")])
              (PStr "news") (PStr "Hi") (PStr "There"))
    as (resp & Hrun & Htopic & _ & Hdata & Hstatus & Hbody);
    try reflexivity.
  eexists resp, _. split; [exact Hrun|]. split; [exact Htopic|].
  split; [reflexivity|]. split; [exact Hstatus|].
  rewrite Hbody. reflexivity.
Defined.

(** ** The fields a handler reads *)

(** X6: each POST handler reads only its own fields of the body: two
    bodies that agree on userId, title, body, data and channelId are
    handled alike by send-to-user, two that agree on title, body and data
    by send-to-all (which ignores channelId), and two that agree on
    topic, title, body and data by send-to-topic. *)
Theorem handlers_read_their_fields_only (w : World) (h : list event)
    (request1 request2 : Request) (d1 d2 : gmap string pyval) :
  get_json request1 = Ok (PDict d1) →
  get_json request2 = Ok (PDict d2) →
  ((∀ key, key ∈ ["userId"; "title"; "body"; "data"; "channelId"] →
           d1 !! key = d2 !! key) →
   App.send_to_user request1 w h = App.send_to_user request2 w h)
  ∧
  ((∀ key, key ∈ ["title"; "body"; "data"] → d1 !! key = d2 !! key) →
   App.send_to_all request1 w h = App.send_to_all request2 w h)
  ∧
  ((∀ key, key ∈ ["topic"; "title"; "body"; "data"] →
           d1 !! key = d2 !! key) →
   App.send_to_topic request1 w h = App.send_to_topic request2 w h).
Proof.
  intros Hjson1 Hjson2. split_and!; intros Hsame.
  - unfold App.send_to_user. unfold_M. rewrite Hjson1, Hjson2. simpl.
    rewrite !(Hsame "userId"), !(Hsame "title"), !(Hsame "body"),
      !(Hsame "data"), !(Hsame "channelId") by set_solver.
    reflexivity.
  - unfold App.send_to_all. unfold_M. rewrite Hjson1, Hjson2. simpl.
    rewrite !(Hsame "title"), !(Hsame "body"), !(Hsame "data") by set_solver.
    reflexivity.
  - unfold App.send_to_topic. unfold_M. rewrite Hjson1, Hjson2. simpl.
    rewrite !(Hsame "topic"), !(Hsame "title"), !(Hsame "body"),
      !(Hsame "data") by set_solver.
    reflexivity.
Qed.

Lemma handlers_read_their_fields_only_witness :
  let request1 :=
    Example.post [("title", PStr "Hi"); ("body", PStr "There");
                  ("priority", PStr "high")] in
  let w := Example.world 3 Example.accepting in
  App.send_to_user request1 w [] = App.send_to_user Example.hi_there w [] ∧
  App.send_to_all request1 w [] = App.send_to_all Example.hi_there w [] ∧
  App.send_to_topic request1 w [] = App.send_to_topic Example.hi_there w [].
Proof.
  intros request1 w.
  destruct (handlers_read_their_fields_only w [] request1 Example.hi_there
              (list_to_map [("title", PStr "Hi"); ("body", PStr "There");
                            ("priority", PStr "high")])
              (list_to_map [("title", PStr "Hi"); ("body", PStr "There")])
              eq_refl eq_refl) as (Huser & Hall & Htopic).
  split_and!; [apply Huser|apply Hall|apply Htopic];
    intros key Hkey;
    repeat (apply elem_of_cons in Hkey as [->|Hkey]; [reflexivity|]);
    by apply elem_of_nil in Hkey.
Defined.

(** ** Failures of the collaborators *)

(** X7: a send-to-user request whose data is present but is not an
    object (a string, a list, null, ...) fails only when the message is
    built: for an existing user with a token the response is status 500
    with the text of the [TypeError], after the Directory lookup and
    without any delivery call. *)
Theorem send_to_user_data_not_a_mapping (w : World) (h : list event)
    (request : Request) (d : gmap string pyval)
    (user_id title body data : pyval) (user_data : gmap string pyval) :
  get_json request = Ok (PDict d) →
  d !! "userId" = Some user_id → truthy user_id = true →
  d !! "title" = Some title → truthy title = true →
  d !! "body" = Some body → truthy body = true →
  d !! "data" = Some data → is_dict data = false →
  dir_document_get (directory w) h App.usuarios_registrados user_id
    = Ok (Some user_data) →
  truthy (dict_get user_data "fcmToken") = true →
  ∃ calls resp,
    handle (App.send_to_user request) w h = (calls, Ok resp) ∧
    calls = [DocumentGet App.usuarios_registrados user_id
               (Ok (Some user_data))] ∧
    send_calls calls = [] ∧
    status resp = 500%Z ∧
    json resp !! "details"
      = Some (PStr ("'" +:+ type_name data +:+ "' object is not a mapping")).
Proof.
  intros Hjson Huser_id Hut Htitle Htt Hbody Hbt Hdata Hnot Hlookup Htoken.
  pose proof (send_to_user_run w h request d user_id title body
                Hjson Huser_id Hut Htitle Htt Hbody Hbt) as Hrun.
  rewrite Hlookup in Hrun. cbv zeta in Hrun.
  rewrite Htoken, Hdata in Hrun. simpl in Hrun.
  destruct data; try discriminate Hnot;
    (eexists _, _; split; [apply handle_app, Hrun|done]).
Qed.

Lemma send_to_user_data_not_a_mapping_witness :
  ∃ calls resp,
    handle (App.send_to_user
              (Example.post [("userId", PStr "u1"); ("title", PStr "Hi");
                             ("body", PStr "There"); ("data", PNone)]))
           (Example.world 3 Example.accepting) [] = (calls, Ok resp) ∧
    calls = [DocumentGet App.usuarios_registrados (PStr "u1")
               (Ok (Some (to_dict (Example.user 1))))] ∧
    send_calls calls = [] ∧
    status resp = 500%Z ∧
    json resp !! "details"
      = Some (PStr "'NoneType' object is not a mapping").
Proof.
  apply (send_to_user_data_not_a_mapping
           (Example.world 3 Example.accepting) []
           (Example.post [("userId", PStr "u1"); ("title", PStr "Hi");
                          ("body", PStr "There"); ("data", PNone)])
           (list_to_map [("userId", PStr "u1"); ("title", PStr "Hi");
                         ("body", PStr "There"); ("data", PNone)])
           (PStr "u1") (PStr "Hi") (PStr "There") PNone
           (to_dict (Example.user 1))); reflexivity.
Defined.



(** ** The batches of [send_to_all] *)

Lemma batches_groups (tokens : list pyval) :
  batches tokens
  = map (group 500 tokens) (seq 0 (ceil_div (length tokens) 500)).
Proof.
  unfold batches. rewrite (py_range_closed _ _ batch_size_pos).
  change App.batch_size with 500%nat.
  rewrite <- list_fmap_compose. apply list_fmap_ext. intros ? k _. simpl.
  apply (py_slice_group tokens 500 k).
Qed.

(** X9: the batches of a token list partition it: in order they
    concatenate to the list, there are ceil(N/500) of them (none for an
    empty list), the k-th one has min(500, N - 500 k) tokens, so none is
    empty, none exceeds 500, and every batch but the last has exactly
    500. *)
Theorem batches_partition (tokens : list pyval) :
  concat (batches tokens) = tokens ∧
  length (batches tokens) = ceil_div (length tokens) 500 ∧
  (tokens = [] → batches tokens = []) ∧
  ∀ k batch,
    batches tokens !! k = Some batch →
    batch = take 500 (drop (k * 500) tokens) ∧
    length batch = (500 `min` (length tokens - k * 500))%nat ∧
    (0 < length batch ≤ 500)%nat ∧
    (S k < length (batches tokens) → length batch = 500%nat).
Proof.
  rewrite batches_groups. split_and!.
  - apply concat_all_groups. lia.
  - by rewrite length_map, length_seq.
  - by intros ->.
  - intros k batch Hk. rewrite length_map, length_seq.
    change (map (group 500 tokens) (seq 0 (ceil_div (length tokens) 500)))
      with (group 500 tokens <$> seq 0 (ceil_div (length tokens) 500)) in Hk.
    rewrite list_lookup_fmap in Hk.
    destruct (seq 0 (ceil_div (length tokens) 500) !! k) as [k'|] eqn:Hseq;
      [|done].
    apply lookup_seq in Hseq as [-> Hlt]. simpl in Hk.
    injection Hk as <-.
    assert (length (group 500 tokens k)
            = (500 `min` (length tokens - k * 500))%nat) as Hlen.
    { unfold group. by rewrite length_take, length_drop. }
    split_and!; try done.
    + rewrite Hlen.
      assert (¬ (length tokens ≤ k * 500)%nat) as Hn; [|lia].
      intros Hle. apply (ceil_div_spec _ 500 k) in Hle; lia.
    + rewrite Hlen. lia.
    + intros Hnext. rewrite Hlen.
      assert (¬ (length tokens ≤ S k * 500)%nat) as Hn; [|lia].
      intros Hle. apply (ceil_div_spec _ 500 (S k)) in Hle; lia.
Qed.

(** Exact multiples, one token over, and a single token. *)
Example batches_boundaries :
  map length (batches (replicate 1000 (PStr "t"))) = [500; 500]%nat ∧
  map length (batches (replicate 1001 (PStr "t"))) = [500; 500; 1]%nat ∧
  map length (batches [PStr "t"]) = [1]%nat.
Proof. vm_compute. done. Qed.

Lemma Forall_zip_with_l {A B C : Type} (P : C → Prop) (f : A → B → C)
    (l : list A) :
  (∀ x y, x ∈ l → P (f x y)) →
  ∀ k : list B, Forall P (zip_with f l k).
Proof.
  induction l as [|x l IH]; intros HP [|y k]; simpl; try constructor.
  - apply HP. by left.
  - apply IH. intros x' y' Hx'. apply HP. by right.
Qed.

Lemma eligible_tokens_truthy (users : list DocumentSnapshot) :
  Forall (λ token, truthy token = true) (eligible_tokens users).
Proof.
  apply Forall_forall. intros token Htoken.
  by apply list_elem_of_filter in Htoken as [Htruthy _].
Qed.

(** The calls of a valid request with eligible tokens, over the
    batches. *)
Lemma send_to_all_over_batches (w : World) (h : list event)
    (request : Request) (d : gmap string pyval) (title body : pyval)
    (users : list DocumentSnapshot) :
  get_json request = Ok (PDict d) →
  d !! "title" = Some title → truthy title = true →
  d !! "body" = Some body → truthy body = true →
  dir_stream_where (directory w) h App.usuarios_registrados
    "fcmToken" "!=" PNone = Ok users →
  eligible_tokens users ≠ [] →
  let tokens := eligible_tokens users in
  let message :=
    multicast_message title body (default (PDict ∅) (d !! "data")) in
  ∃ answers : list (result BatchResponse),
    (length answers ≤ length (batches tokens))%nat ∧
    ((∃ rs,
        answers = map Ok rs ∧ length rs = length (batches tokens) ∧
        handle (App.send_to_all request) w h =
          (token_query (Ok users) ::
             zip_with (λ batch a, SendMulticast (message batch) a)
                      (batches tokens) answers,
           Ok (all_sent (length tokens) (sum_success rs) (sum_failure rs))))
     ∨
     (∃ rs e,
        answers = map Ok rs ++ [Raise e] ∧
        handle (App.send_to_all request) w h =
          (token_query (Ok users) ::
             zip_with (λ batch a, SendMulticast (message batch) a)
                      (batches tokens) answers,
           Ok (App.error_500 e)))
     ∨
     (∃ rs e unbuilt,
        answers = map Ok rs ∧
        batches tokens !! length rs = Some unbuilt ∧
        dlv_multicast_message_raises (delivery w)
          {| n_title := title; n_body := body |}
          (default (PDict ∅) (d !! "data")) unbuilt = Some e ∧
        handle (App.send_to_all request) w h =
          (token_query (Ok users) ::
             zip_with (λ batch a, SendMulticast (message batch) a)
                      (batches tokens) answers,
           Ok (App.error_500 e)))).
Proof.
  intros Hjson Htitle Htt Hbody Hbt Husers Hsome tokens message.
  destruct (send_to_all_batches_run w h request d title body users
              Hjson Htitle Htt Hbody Hbt Husers Hsome)
    as (answers & Hlen & Hcase).
  fold tokens in Hlen, Hcase.
  assert (∀ answers : list (result BatchResponse),
            zip_with (λ i a,
                        SendMulticast
                          (batch_message title body
                             (default (PDict ∅) (d !! "data")) tokens i) a)
                     (py_range (length tokens) App.batch_size) answers
            = zip_with (λ batch a, SendMulticast (message batch) a)
                       (batches tokens) answers) as Hzip.
  { intros answers'. unfold batches. by rewrite zip_with_fmap_l. }
  assert (length (py_range (length tokens) App.batch_size)
          = length (batches tokens)) as Hbatches
    by (unfold batches; by rewrite length_map).
  rewrite Hbatches in Hlen, Hcase. exists answers. split; [done|].
  destruct Hcase as [(rs & -> & Hrs & Hrun)
                    |[(rs & e & -> & Hrun)
                     |(rs & e & i & -> & Hi & Hraises & Hrun)]].
  - left. exists rs. split; [done|]. split; [done|].
    rewrite <- Hzip. by apply handle_app.
  - right. left. exists rs, e. split; [done|].
    rewrite <- Hzip. by apply handle_app.
  - right. right.
    exists rs, e, (py_slice tokens i (i + App.batch_size)).
    split; [done|]. split; [unfold batches; by rewrite list_lookup_fmap, Hi|].
    split; [done|]. rewrite <- Hzip. by apply handle_app.
Qed.

Lemma multicast_calls_zip_with {A : Type} (message : A → MulticastMessage)
    (l : list A) :
  ∀ answers : list (result BatchResponse),
    multicast_calls (zip_with (λ x a, SendMulticast (message x) a) l answers)
    = zip_with (λ x a, (message x, a)) l answers.
Proof.
  induction l as [|x l IH]; intros [|a answers]; simpl; try done.
  unfold multicast_calls in *. simpl. by rewrite IH.
Qed.

Lemma zip_with_snoc_r {A B C : Type} (f : A → B → C) (l : list A) :
  ∀ (k : list B) (y : B),
    (length k < length l)%nat →
    ∃ x, l !! length k = Some x ∧
         zip_with f l (k ++ [y]) = zip_with f (take (length k) l) k ++ [f x y].
Proof.
  induction l as [|x l IH]; intros k y Hlen; simpl in Hlen; [lia|].
  destruct k as [|y' k]; simpl.
  - exists x. split; [done|]. by destruct l.
  - destruct (IH k y) as (x' & Hx' & Hzip); [simpl in Hlen; lia|].
    exists x'. split; [done|]. by rewrite Hzip.
Qed.

Lemma zip_with_all_returned {A : Type} (f : A → MulticastMessage)
    (l : list A) :
  ∀ rs : list BatchResponse,
    Forall (λ c : MulticastMessage * result BatchResponse, returned c.2)
           (zip_with (λ x a, (f x, a)) l (map Ok rs)).
Proof.
  induction l as [|x l IH]; intros [|r rs]; simpl; constructor; [done|].
  apply IH.
Qed.

(** X10: when a multicast call of a send-to-all request raises, the loop
    stops there: the batches before it have been submitted and answered,
    the failing batch is the last call made, no later batch is tried, and
    the response is the status-500 error with the exception's text, which
    reports none of the counts of the batches already delivered. *)
Theorem send_to_all_stops_at_first_failure (w : World) (h : list event)
    (request : Request) (d : gmap string pyval) (title body : pyval)
    (users : list DocumentSnapshot) :
  get_json request = Ok (PDict d) →
  d !! "title" = Some title → truthy title = true →
  d !! "body" = Some body → truthy body = true →
  dir_stream_where (directory w) h App.usuarios_registrados
    "fcmToken" "!=" PNone = Ok users →
  eligible_tokens users ≠ [] →
  let tokens := eligible_tokens users in
  let message :=
    multicast_message title body (default (PDict ∅) (d !! "data")) in
  ∃ calls resp,
    handle (App.send_to_all request) w h = (calls, Ok resp) ∧
    (¬ Forall (λ c, returned c.2) (multicast_calls calls) →
     ∃ rs e failed,
       batches tokens !! length rs = Some failed ∧
       multicast_calls calls
         = zip_with (λ batch r, (message batch, Ok r))
                    (take (length rs) (batches tokens)) rs
           ++ [(message failed, Raise e)] ∧
       resp = App.error_500 e ∧
       status resp = 500%Z ∧
       json resp !! "error" = Some (PStr (exn_str e)) ∧
       json resp !! "successCount" = None ∧
       json resp !! "failureCount" = None).
Proof.
  intros Hjson Htitle Htt Hbody Hbt Husers Hsome tokens message.
  destruct (send_to_all_over_batches w h request d title body users
              Hjson Htitle Htt Hbody Hbt Husers Hsome)
    as (answers & Hlen
          & [(rs & -> & Hrs & Hrun)
            |[(rs & e & -> & Hrun)
             |(rs & e & unbuilt & -> & Hunbuilt & Hraises & Hrun)]]);
    fold tokens in Hlen, Hrun; fold message in Hrun;
    eexists _, _; (split; [exact Hrun|]); intros Hraised.
  - exfalso. apply Hraised.
    change (multicast_calls (token_query (Ok users) :: ?evs))
      with (multicast_calls evs).
    rewrite multicast_calls_zip_with. apply zip_with_all_returned.
  - change (multicast_calls (token_query (Ok users) :: ?evs))
      with (multicast_calls evs).
    rewrite multicast_calls_zip_with.
    rewrite length_app, length_map in Hlen. simpl in Hlen.
    destruct (zip_with_snoc_r (λ batch a, (message batch, a))
                (batches tokens) (map Ok rs) (Raise e))
      as (failed & Hfailed & Hzip); [rewrite length_map; lia|].
    rewrite length_map in Hfailed, Hzip.
    exists rs, e, failed. split; [done|]. split; [|done].
    rewrite Hzip. f_equal. by rewrite zip_with_fmap_r.
  - exfalso. apply Hraised.
    change (multicast_calls (token_query (Ok users) :: ?evs))
      with (multicast_calls evs).
    rewrite multicast_calls_zip_with. apply zip_with_all_returned.
Qed.

Lemma send_to_all_stops_at_first_failure_witness :
  ∃ calls resp,
    handle (App.send_to_all Example.hi_there)
           (Example.world 3 Example.unreachable) [] = (calls, Ok resp) ∧
    map (λ c, mm_tokens c.1) (multicast_calls calls)
      = [[PStr "tok0"; PStr "tok1"; PStr "tok2"]] ∧
    resp = App.error_500 Example.unavailable.
Proof.
  destruct (send_to_all_stops_at_first_failure
              (Example.world 3 Example.unreachable) [] Example.hi_there
              (list_to_map [("title", PStr "Hi"); ("body", PStr "There")])
              (PStr "Hi") (PStr "There") (Example.users 3))
    as (calls & resp & Hrun & Hraised);
    [reflexivity | reflexivity | reflexivity | reflexivity | reflexivity
    | reflexivity | vm_compute; discriminate | ].
  assert (calls = (handle (App.send_to_all Example.hi_there)
                     (Example.world 3 Example.unreachable) []).1) as Hcalls
    by (by rewrite Hrun).
  destruct Hraised as (rs & e & failed & Hfailed & Hcalls' & Hresp & _).
  { rewrite Hcalls. vm_compute. intros Hall.
    inversion Hall as [|? ? Hhead _]. exact Hhead. }
  exists calls, resp. split; [exact Hrun|].
  split; [rewrite Hcalls; vm_compute; reflexivity|].
  rewrite Hrun in Hcalls. vm_compute in Hrun.
  injection Hrun as _ <-. reflexivity.
Defined.

Ltac solve_shape :=
  split_and!; [by repeat constructor | eexists; reflexivity | reflexivity].

Lemma error_500_shape (e : exn) (codes : list Z) :
  500%Z ∈ codes → error_shape codes (App.error_500 e).
Proof. intros Hcode. split_and!; [done|eexists; reflexivity|reflexivity]. Qed.

Lemma error_send_to_user_shape (e : exn) (codes : list Z) :
  500%Z ∈ codes → error_shape codes (App.error_send_to_user e).
Proof. intros Hcode. split_and!; [done|eexists; reflexivity|reflexivity]. Qed.

(** Every run of [send_to_all] that is no valid request with eligible
    tokens makes no call, or the one Directory query, and returns an
    error body. *)
Lemma send_to_all_early (w : World) (h : list event) (request : Request) :
  (∃ evs resp,
     handle (App.send_to_all request) w h = (evs, Ok resp) ∧
     (evs = [] ∨ ∃ answer, evs = [token_query answer]) ∧
     error_shape [400; 500]%Z resp)
  ∨
  (∃ d title body users,
     get_json request = Ok (PDict d) ∧
     d !! "title" = Some title ∧ truthy title = true ∧
     d !! "body" = Some body ∧ truthy body = true ∧
     dir_stream_where (directory w) h App.usuarios_registrados
       "fcmToken" "!=" PNone = Ok users ∧
     eligible_tokens users ≠ []).
Proof.
  destruct (get_json request) as [data|e] eqn:Hjson.
  - destruct (is_dict data) eqn:Hdict.
    + destruct data as [| | | | | |d]; try discriminate Hdict.
      destruct (decide (missing_fields d ["title"; "body"] = []))
        as [Hnone|Hmissing].
      * apply missing_fields_nil_2 in Hnone
          as (title & body & Htitle & Htt & Hbody & Hbt).
        destruct (dir_stream_where (directory w) h App.usuarios_registrados
                    "fcmToken" "!=" PNone) as [users|e] eqn:Husers.
        -- destruct (decide (eligible_tokens users = [])) as [Hempty|Hsome].
           ++ left. eexists _, _. split; [|split; [right; eauto|]].
              ** apply handle_app.
                 by apply (send_to_all_no_tokens w h request d title body
                             users).
              ** solve_shape.
           ++ right. by exists d, title, body, users.
        -- left. eexists _, _. split; [|split; [right; eauto|]].
           ++ apply handle_app. unfold App.send_to_all. unfold_M.
              rewrite Hjson. simpl. rewrite Htitle, Hbody. simpl.
              rewrite Htt, Hbt. simpl. by rewrite Husers.
           ++ apply error_500_shape. by repeat constructor.
      * left. eexists _, _. split; [|split; [by left|]].
        -- by apply handle_nil, (send_to_all_missing_run w h request d).
        -- solve_shape.
    + left. eexists _, _. split; [|split; [by left|]].
      * by apply handle_nil, (non_object_run w h request data).
      * apply error_500_shape. by repeat constructor.
  - left. eexists _, _. split; [|split; [by left|]].
    + by apply handle_nil, (unreadable_run w h request e).
    + apply error_500_shape. by repeat constructor.
Qed.

Lemma batches_well_formed (users : list DocumentSnapshot) (batch : list pyval) :
  batch ∈ batches (eligible_tokens users) →
  (0 < length batch ≤ 500)%nat ∧ Forall (λ token, truthy token = true) batch.
Proof.
  rewrite batches_groups. intros Hbatch.
  apply (list_elem_of_fmap (group 500 (eligible_tokens users))) in Hbatch
    as (k & -> & Hk).
  apply elem_of_seq in Hk. split_and!.
  - apply group_nonempty; lia.
  - apply group_length_le.
  - unfold group. apply Forall_take, Forall_drop, eligible_tokens_truthy.
Qed.

Lemma send_calls_zip_with {A : Type} (message : A → MulticastMessage)
    (l : list A) :
  ∀ answers : list (result BatchResponse),
    send_calls (zip_with (λ x a, SendMulticast (message x) a) l answers) = [].
Proof.
  induction l as [|x l IH]; intros [|a answers]; simpl; try done.
Qed.

Lemma multicast_events_zip_with {A : Type} (message : A → MulticastMessage)
    (l : list A) :
  ∀ answers : list (result BatchResponse),
    map (λ c, SendMulticast c.1 c.2)
        (zip_with (λ x a, (message x, a)) l answers)
    = zip_with (λ x a, SendMulticast (message x) a) l answers.
Proof.
  induction l as [|x l IH]; intros [|a answers]; simpl; try done.
  by rewrite IH.
Qed.

(** X11: whatever the request, the Directory and the backend do, the
    calls of send-to-all are either none, or one filtered scan of the
    Directory followed by multicast calls only: it makes no single send
    and no point lookup, and it never submits an empty multicast, nor one
    over more than 500 tokens, nor a falsy (empty) token. *)
Theorem send_to_all_call_discipline (w : World) (h : list event)
    (request : Request) :
  let calls := (handle (App.send_to_all request) w h).1 in
  (calls = [] ∨
   ∃ answer,
     calls = token_query answer
             :: map (λ c, SendMulticast c.1 c.2) (multicast_calls calls)) ∧
  send_calls calls = [] ∧
  Forall (λ c, (0 < length (mm_tokens c.1) ≤ 500)%nat ∧
               Forall (λ token, truthy token = true) (mm_tokens c.1))
         (multicast_calls calls).
Proof.
  intros calls.
  destruct (send_to_all_early w h request)
    as [(evs & resp & Hrun & [->|(answer & ->)] & _)
       |(d & title & body & users & Hjson & Htitle & Htt & Hbody & Hbt
           & Husers & Hsome)].
  - subst calls. rewrite Hrun. split_and!; [by left|done|constructor].
  - subst calls. rewrite Hrun. split_and!; [right; by exists answer|done|].
    constructor.
  - destruct (send_to_all_over_batches w h request d title body users
                Hjson Htitle Htt Hbody Hbt Husers Hsome)
      as (answers & _ & Hcase).
    assert (∃ resp,
              handle (App.send_to_all request) w h
              = (token_query (Ok users) ::
                   zip_with
                     (λ batch a,
                        SendMulticast
                          (multicast_message title body
                             (default (PDict ∅) (d !! "data")) batch) a)
                     (batches (eligible_tokens users)) answers,
                 Ok resp)) as (resp & Hrun).
    { destruct Hcase as [(rs & _ & _ & Hrun)
                        |[(rs & e & _ & Hrun)
                         |(rs & e & unbuilt & _ & _ & _ & Hrun)]]; eauto. }
    subst calls. rewrite Hrun. simpl fst.
    change (multicast_calls (token_query (Ok users) :: ?evs))
      with (multicast_calls evs).
    change (send_calls (token_query (Ok users) :: ?evs))
      with (send_calls evs).
    rewrite multicast_calls_zip_with, send_calls_zip_with.
    split_and!.
    + right. exists (Ok users). by rewrite multicast_events_zip_with.
    + done.
    + apply Forall_zip_with_l. intros batch a Hbatch. simpl.
      by apply (batches_well_formed users).
Qed.

(** A body without title makes no call; an unreachable backend is called
    once after the scan. *)
Example send_to_all_calls :
  (handle (App.send_to_all (Example.post [("body", PStr "There")]))
          (Example.world 3 Example.accepting) []).1 = [] ∧
  map is_directory_call
      (handle (App.send_to_all Example.hi_there)
              (Example.world 3 Example.unreachable) []).1 = [true; false].
Proof. vm_compute. done. Qed.

(** ** The calls of [send_to_user] *)

(** X12: whatever the request, the Directory and the backend do, the
    calls of send-to-user are none, or the point lookup of the request's
    userId, or that lookup followed by one single send; there is never a
    multicast nor a scan.  A message is only ever sent after the lookup
    returned a record with a truthy fcmToken, it is addressed to that
    token and to no topic, and its Android channel is the channelId of
    its data map. *)
Theorem send_to_user_call_discipline (w : World) (h : list event)
    (request : Request) :
  let calls := (handle (App.send_to_user request) w h).1 in
  multicast_calls calls = [] ∧
  (calls = [] ∨
   ∃ d user_id answer,
     get_json request = Ok (PDict d) ∧ d !! "userId" = Some user_id ∧
     (calls = [DocumentGet App.usuarios_registrados user_id answer] ∨
      ∃ user_data message reply m,
        answer = Ok (Some user_data) ∧
        calls = [DocumentGet App.usuarios_registrados user_id answer;
                 Send message reply] ∧
        truthy (dict_get user_data "fcmToken") = true ∧
        msg_token message = Some (dict_get user_data "fcmToken") ∧
        msg_topic message = None ∧
        msg_data message = PDict m ∧
        android_channel message = m !! "channelId")).
Proof.
  intros calls.
  destruct (send_to_user_cases w h request)
    as [(resp & Hrun & _)
       |(d & user_id & title & body & Hjson & Huser_id & Hut & Htitle & Htt
           & Hbody & Hbt)].
  - apply handle_nil in Hrun. subst calls. rewrite Hrun. split; [done|].
    by left.
  - pose proof (send_to_user_run w h request d user_id title body
                  Hjson Huser_id Hut Htitle Htt Hbody Hbt) as Hrun.
    cbv zeta in Hrun.
    destruct (dir_document_get (directory w) h App.usuarios_registrados
                user_id) as [[user_data|]|e] eqn:Hlookup.
    + destruct (truthy (dict_get user_data "fcmToken")) eqn:Htoken.
      * destruct (default (PDict ∅) (d !! "data"))
          as [| | | | | |caller_data] eqn:Hdata;
          try (apply handle_app in Hrun; subst calls; rewrite Hrun;
               split; [done|]; right;
               exists d, user_id, (Ok (Some user_data));
               split; [done|]; split; [done|]; by left).
        match type of Hrun with
        | context [dlv_send ?dl ?hh ?m] =>
            destruct (dlv_send dl hh m) as [message_id|e]
        end; rewrite <- app_assoc in Hrun; apply handle_app in Hrun;
          subst calls; rewrite Hrun; (split; [done|]); right;
          exists d, user_id, (Ok (Some user_data));
          (split; [done|]); (split; [done|]); right;
          eexists user_data, _, _, _;
          (split; [done|]); (split; [reflexivity|]); (split; [done|]);
          (split; [reflexivity|]); (split; [reflexivity|]);
          (split; [reflexivity|]); simpl; by rewrite lookup_insert_eq.
      * apply handle_app in Hrun. subst calls. rewrite Hrun.
        split; [done|]. right. exists d, user_id, (Ok (Some user_data)).
        split; [done|]. split; [done|]. by left.
    + apply handle_app in Hrun. subst calls. rewrite Hrun.
      split; [done|]. right. exists d, user_id, (Ok None).
      split; [done|]. split; [done|]. by left.
    + apply handle_app in Hrun. subst calls. rewrite Hrun.
      split; [done|]. right. exists d, user_id, (Raise e).
      split; [done|]. split; [done|]. by left.
Qed.

(** ** The listing *)

Lemma user_entry_fields (user : DocumentSnapshot) :
  entry_field "id" (App.user_entry user) = Some (PStr (snap_id user)) ∧
  entry_field "email" (App.user_entry user)
    = Some (dict_get (to_dict user) "email").
Proof. split; reflexivity. Qed.

(** X13: the users listing makes exactly one call, the scan; its entries
    follow the enumeration, one per record and in the same order, each
    with the record's id and its email (null when the record has none);
    total is the number of records and withTokens never exceeds it. *)
Theorem get_users_listing (w : World) (h : list event)
    (users : list DocumentSnapshot) :
  dir_stream (directory w) h App.usuarios_registrados = Ok users →
  ∃ resp entries with_tokens,
    handle App.get_users w h
      = ([Stream App.usuarios_registrados (Ok users)], Ok resp) ∧
    json resp !! "users" = Some (PList entries) ∧
    map (entry_field "id") entries
      = map (λ user, Some (PStr (snap_id user))) users ∧
    map (entry_field "email") entries
      = map (λ user, Some (default PNone (to_dict user !! "email"))) users ∧
    json resp !! "total" = Some (PInt (Z.of_nat (length users))) ∧
    json resp !! "withTokens" = Some (PInt (Z.of_nat with_tokens)) ∧
    (with_tokens ≤ length users)%nat.
Proof.
  intros Husers.
  pose proof (get_users_run w h) as Hrun. rewrite Husers in Hrun.
  apply handle_app in Hrun.
  exists (users_listed (map App.user_entry users)),
    (map App.user_entry users),
    (count_with_token (map App.user_entry users)).
  split; [exact Hrun|]. split; [done|].
  split; [|split; [|split; [|split; [done|]]]].
  - rewrite map_map. apply map_ext. intros user.
    apply (user_entry_fields user).
  - rewrite map_map. apply map_ext. intros user.
    apply (user_entry_fields user).
  - change (Some (PInt (Z.of_nat (length (map App.user_entry users))))
            = Some (PInt (Z.of_nat (length users)))).
    by rewrite length_map.
  - unfold count_with_token.
    etransitivity; [apply length_filter|]. by rewrite length_map.
Qed.

Lemma get_users_listing_witness :
  ∃ resp entries,
    handle App.get_users
           {| directory := Example.memory_directory Example.mixed_users;
              delivery := Example.unreachable |} []
      = ([Stream App.usuarios_registrados (Ok Example.mixed_users)], Ok resp) ∧
    json resp !! "users" = Some (PList entries) ∧
    map (entry_field "id") entries
      = [Some (PStr "u0"); Some (PStr "u8"); Some (PStr "u9")] ∧
    map (entry_field "email") entries
      = [Some (PStr "u0@example.org"); Some PNone;
         Some (PStr "u9@example.org")] ∧
    json resp !! "total" = Some (PInt 3).
Proof.
  destruct (get_users_listing
              {| directory := Example.memory_directory Example.mixed_users;
                 delivery := Example.unreachable |} [] Example.mixed_users)
    as (resp & entries & n & Hrun & Husers & Hids & Hemails & Htotal & _);
    [reflexivity|].
  exists resp, entries. split; [exact Hrun|]. split; [exact Husers|].
  split; [exact Hids|]. split; [exact Hemails|exact Htotal].
Defined.

(** ** Tokens counted by the listing and by the broadcast *)







(** ** The shape of the responses *)

(** X15: no handler lets an exception escape, whatever the request, the
    Directory and the backend do: each run returns a response that is
    either a success body (status 200, success true, no error field) or
    an error body (an error text, no success field) with status 400, 404
    or 500 for send-to-user, 400 or 500 for send-to-all and
    send-to-topic, and 500 for the users listing. *)
Theorem responses_are_success_or_error (w : World) (h : list event)
    (request : Request) :
  (∃ resp, (handle (App.send_to_user request) w h).2 = Ok resp ∧
           (success_shape resp ∨ error_shape [400; 404; 500]%Z resp)) ∧
  (∃ resp, (handle (App.send_to_all request) w h).2 = Ok resp ∧
           (success_shape resp ∨ error_shape [400; 500]%Z resp)) ∧
  (∃ resp, (handle (App.send_to_topic request) w h).2 = Ok resp ∧
           (success_shape resp ∨ error_shape [400; 500]%Z resp)) ∧
  (∃ resp, (handle App.get_users w h).2 = Ok resp ∧
           (success_shape resp ∨ error_shape [500]%Z resp)).
Proof.
  split_and!.
  - destruct (get_json request) as [data|e] eqn:Hjson;
      [destruct (is_dict data) eqn:Hdict|].
    + destruct data as [| | | | | |d]; try discriminate Hdict.
      destruct (decide (missing_fields d ["userId"; "title"; "body"] = []))
        as [Hnone|Hmissing].
      * apply missing_fields_nil_3 in Hnone
          as (user_id & title & body & Huser_id & Hut & Htitle & Htt
                & Hbody & Hbt).
        pose proof (send_to_user_run w h request d user_id title body
                      Hjson Huser_id Hut Htitle Htt Hbody Hbt) as Hrun.
        cbv zeta in Hrun.
        destruct (dir_document_get (directory w) h App.usuarios_registrados
                    user_id) as [[user_data|]|e].
        -- destruct (truthy (dict_get user_data "fcmToken")).
           ++ destruct (default (PDict ∅) (d !! "data"));
                try (apply handle_app in Hrun; rewrite Hrun; eexists;
                     split; [reflexivity|right];
                     apply error_send_to_user_shape; by repeat constructor).
              match type of Hrun with
              | context [dlv_send ?dl ?hh ?m] =>
                  destruct (dlv_send dl hh m) as [message_id|e]
              end; rewrite <- app_assoc in Hrun; apply handle_app in Hrun;
                rewrite Hrun; eexists; (split; [reflexivity|]).
              ** left. by split_and!.
              ** right. apply error_send_to_user_shape.
                 by repeat constructor.
           ++ apply handle_app in Hrun. rewrite Hrun. eexists.
              split; [reflexivity|right]. solve_shape.
        -- apply handle_app in Hrun. rewrite Hrun. eexists.
           split; [reflexivity|right]. solve_shape.
        -- apply handle_app in Hrun. rewrite Hrun. eexists.
           split; [reflexivity|right].
           apply error_send_to_user_shape. by repeat constructor.
      * rewrite (handle_nil _ _ _ _
                   (send_to_user_missing_run w h request d Hjson Hmissing)).
        eexists. split; [reflexivity|right]. solve_shape.
    + destruct (non_object_run w h request data Hjson Hdict) as (Hrun & _).
      rewrite (handle_nil _ _ _ _ Hrun). eexists.
      split; [reflexivity|right].
      apply error_send_to_user_shape. by repeat constructor.
    + destruct (unreadable_run w h request e Hjson) as (Hrun & _).
      rewrite (handle_nil _ _ _ _ Hrun). eexists.
      split; [reflexivity|right].
      apply error_send_to_user_shape. by repeat constructor.
  - destruct (send_to_all_early w h request)
      as [(evs & resp & Hrun & _ & Hshape)
         |(d & title & body & users & Hjson & Htitle & Htt & Hbody & Hbt
             & Husers & Hsome)].
    + rewrite Hrun. eauto.
    + destruct (send_to_all_over_batches w h request d title body users
                  Hjson Htitle Htt Hbody Hbt Husers Hsome)
        as (answers & _
              & [(rs & _ & _ & Hrun)
                |[(rs & e & _ & Hrun)
                 |(rs & e & unbuilt & _ & _ & _ & Hrun)]]);
        rewrite Hrun; eexists; (split; [reflexivity|]).
      * left. by split_and!.
      * right. apply error_500_shape. by repeat constructor.
      * right. apply error_500_shape. by repeat constructor.
  - destruct (get_json request) as [data|e] eqn:Hjson;
      [destruct (is_dict data) eqn:Hdict|].
    + destruct data as [| | | | | |d]; try discriminate Hdict.
      destruct (decide (missing_fields d ["topic"; "title"; "body"] = []))
        as [Hnone|Hmissing].
      * apply missing_fields_nil_3 in Hnone
          as (topic & title & body & Htopic & Htt & Htitle & Hti
                & Hbody & Hbt).
        pose proof (send_to_topic_run w h request d topic title body
                      Hjson Htopic Htt Htitle Hti Hbody Hbt) as Hrun.
        cbv zeta in Hrun.
        match type of Hrun with
        | context [dlv_send ?dl ?hh ?m] =>
            destruct (dlv_send dl hh m) as [message_id|e]
        end; apply handle_app in Hrun; rewrite Hrun; eexists;
          (split; [reflexivity|]).
        -- left. by split_and!.
        -- right. apply error_500_shape. by repeat constructor.
      * rewrite (handle_nil _ _ _ _
                   (send_to_topic_missing_run w h request d Hjson Hmissing)).
        eexists. split; [reflexivity|right]. solve_shape.
    + destruct (non_object_run w h request data Hjson Hdict)
        as (_ & _ & Hrun).
      rewrite (handle_nil _ _ _ _ Hrun). eexists.
      split; [reflexivity|right]. apply error_500_shape.
      by repeat constructor.
    + destruct (unreadable_run w h request e Hjson) as (_ & _ & Hrun).
      rewrite (handle_nil _ _ _ _ Hrun). eexists.
      split; [reflexivity|right]. apply error_500_shape.
      by repeat constructor.
  - pose proof (get_users_run w h) as Hrun.
    destruct (dir_stream (directory w) h App.usuarios_registrados)
      as [users|e]; apply handle_app in Hrun; rewrite Hrun; eexists;
      (split; [reflexivity|]).
    + left. by split_and!.
    + right. apply error_500_shape. by repeat constructor.
Qed.

(** * Start-up *)

Ltac forall_by_cases :=
  apply Forall_forall; intros ? Hc;
  repeat (apply elem_of_cons in Hc as [->|Hc]; [reflexivity|]);
  by apply elem_of_nil in Hc.

Ltac startup_unfold :=
  unfold Startup.initialize_firebase, Startup.try_except, Startup.raise,
    mbind, mret, Startup.S_bind, Startup.S_ret, Startup.os_environ_get,
    Startup.call_json_loads, Startup.call_certificate,
    Startup.call_initialize_app, Startup.call_print.

Ltac startup_answers p :=
  simpl;
  repeat match goal with
         | |- context [Startup.json_loads p ?text] =>
             destruct (Startup.json_loads p text) as [?|?] eqn:?; simpl
         | |- context [Startup.certificate p ?argument] =>
             destruct (Startup.certificate p argument) as [?|?] eqn:?; simpl
         | |- context [Startup.initialize_app p ?cred] =>
             destruct (Startup.initialize_app p cred) as [[]|?] eqn:?; simpl
         | |- context [Startup.print p ?log ?text] =>
             destruct (Startup.print p log text) as [[]|?] eqn:?; simpl
         end.

(** X16: the credentials come from the environment exactly when
    FIREBASE_CREDENTIALS is set to a non-empty text: then that text is
    parsed first, [Certificate] is only ever given the value the parser
    returned, and a text that does not parse ends the start-up after the
    error message, with no [Certificate] call (there is no fall-back to
    the key file), raising the parser's exception, or that of [print] if
    the message cannot be printed; when the variable is unset or empty
    nothing is parsed and the first call is [Certificate] on the path
    serviceAccountKey.json. *)
Theorem credentials_source (p : Startup.Platform) :
  let firebase_credentials :=
    Startup.environ p !! "FIREBASE_CREDENTIALS" in
  let out := Startup.initialize_firebase p [] in
  (Startup.truthy_str firebase_credentials = true →
   ∃ text,
     firebase_credentials = Some text ∧
     head out.1 = Some (Startup.JsonLoads text (Startup.json_loads p text)) ∧
     (∀ argument answer,
        Startup.Certificate argument answer ∈ out.1 →
        Startup.json_loads p text = Ok argument ∧
        answer = Startup.certificate p argument) ∧
     ∀ e, Startup.json_loads p text = Raise e →
          ∃ printed,
            out.1 = [Startup.JsonLoads text (Raise e);
                     Startup.Print (Startup.error_text e) printed] ∧
            out.2 = Raise (match printed with Ok _ => e | Raise e' => e' end))
  ∧
  (Startup.truthy_str firebase_credentials = false →
   Forall (λ c, Startup.is_json_loads c = false) out.1 ∧
   head out.1
     = Some (Startup.Certificate (PStr "serviceAccountKey.json")
               (Startup.certificate p (PStr "serviceAccountKey.json")))).
Proof.
  intros firebase_credentials out. subst out firebase_credentials.
  startup_unfold.
  destruct (Startup.environ p !! "FIREBASE_CREDENTIALS") as [[|a s]|];
    simpl; (split; [intros Htruthy|intros Hfalsy]); try discriminate.
  - startup_answers p; split; first [forall_by_cases|reflexivity].
  - exists (String a s). split; [reflexivity|].
    startup_answers p;
      (split; [reflexivity|]);
      (split;
       [ intros argument answer Hin;
         repeat (apply elem_of_cons in Hin as [Hin|Hin];
                 [try discriminate Hin|]);
         try (by apply elem_of_nil in Hin);
         injection Hin as -> ->; by split
       | intros e' He'; try discriminate He'; injection He' as <-;
         eexists; split; reflexivity ]).
  - startup_answers p; split; first [forall_by_cases|reflexivity].
Qed.

(** An empty variable counts as unset; a text that parses to a string is
    handed to [Certificate] as it is, so the JSON string literal of the
    key file's path gives the same [Certificate] call as no variable at
    all; a malformed text stops the start-up. *)
Example credentials_source_cases :
  let key_file := Startup.Certificate (PStr "serviceAccountKey.json")
                    (Ok (Startup.CredentialObject 0)) in
  head (Startup.initialize_firebase
          (Startup.platform {[ "FIREBASE_CREDENTIALS" := "" ]}) []).1
    = Some key_file ∧
  (Startup.initialize_firebase
     (Startup.platform
        {[ "FIREBASE_CREDENTIALS"
             := Startup.json_string "serviceAccountKey.json" ]}) []).1 !! 1%nat
    = Some key_file ∧
  (Startup.initialize_firebase
     (Startup.platform {[ "FIREBASE_CREDENTIALS" := "{}" ]}) []).1 !! 1%nat
    = Some (Startup.Certificate (PDict ∅) (Ok (Startup.CredentialObject 0))) ∧
  map Startup.is_json_loads
      (Startup.initialize_firebase
         (Startup.platform {[ "FIREBASE_CREDENTIALS" := "oops" ]}) []).1
    = [true; false] ∧
  (Startup.initialize_firebase
     (Startup.platform {[ "FIREBASE_CREDENTIALS" := "oops" ]}) []).2
    = Raise (Exn "JSONDecodeError"
               "Expecting value: line 1 column 1 (char 0)").
Proof. vm_compute. done. Qed.

(** X17: [initialize_firebase] returns normally exactly when every call
    it made returned, and then it has called [initialize_app] and
    printed the success message last.  Otherwise it raises: the first
    call that raises is followed by the error message with that
    exception's text and by nothing else, and the exception raised is
    that first one, or the one of [print] when the error message itself
    cannot be printed.  [initialize_app] is called at most once, with the
    credential the [Certificate] call just before it returned. *)
Theorem initialize_firebase_outcome (p : Startup.Platform) :
  let out := Startup.initialize_firebase p [] in
  (out.2 = Ok () ↔ Startup.all_calls_returned out.1 = true) ∧
  (out.2 = Ok () →
   ∃ before cred,
     out.1 = before ++ [Startup.InitializeApp cred (Ok ());
                        Startup.Print Startup.initialized_text (Ok ())]) ∧
  (∀ e, out.2 = Raise e →
     ∃ before failed e0 printed,
       out.1 = before ++ [failed; Startup.Print (Startup.error_text e0) printed] ∧
       Startup.all_calls_returned before = true ∧
       Startup.call_raised failed = Some e0 ∧
       e = match printed with Ok _ => e0 | Raise e' => e' end) ∧
  (∀ cred answer,
     Startup.InitializeApp cred answer ∈ out.1 →
     ∃ before argument after,
       out.1 = before ++ [Startup.Certificate argument (Ok cred);
                          Startup.InitializeApp cred answer] ++ after ∧
       Forall (λ c, Startup.is_initialize_app c = false) (before ++ after)).
Proof.
  intros out. subst out. startup_unfold.
  destruct (Startup.environ p !! "FIREBASE_CREDENTIALS") as [[|a s]|];
    startup_answers p;
    (split; [|split; [|split]];
     [ split; intros Hok; first [reflexivity|discriminate Hok]
     | intros Hok; first [ discriminate Hok
                         | by eexists [_], _
                         | by eexists [_; _], _ ]
     | intros e' He'; first [ discriminate He' | injection He' as <- ];
       first [ by eexists [], _, _, _
             | by eexists [_], _, _, _
             | by eexists [_; _], _, _, _
             | by eexists [_; _; _], _, _, _ ]
     | intros cred' answer' Hin;
       repeat (apply elem_of_cons in Hin as [Hin|Hin];
               [try discriminate Hin|]);
       try (by apply elem_of_nil in Hin);
       injection Hin as -> ->;
       first [ eexists [], _, []; split; [reflexivity|forall_by_cases]
             | eexists [], _, [_]; split; [reflexivity|forall_by_cases]
             | eexists [], _, [_; _]; split; [reflexivity|forall_by_cases]
             | eexists [_], _, []; split; [reflexivity|forall_by_cases]
             | eexists [_], _, [_]; split; [reflexivity|forall_by_cases]
             | eexists [_], _, [_; _]; split; [reflexivity|forall_by_cases] ]
     ]).
Qed.

(** With a standard output that cannot print the texts, the start-up
    fails although the application was initialised, and what is raised
    is the exception of [print]. *)
Example initialize_firebase_mute :
  let out := Startup.initialize_firebase
               (Startup.mute (Startup.platform ∅)) [] in
  map Startup.call_raised out.1
    = [None; None;
       Some (Exn "UnicodeEncodeError" "'ascii' codec can't encode character");
       Some (Exn "UnicodeEncodeError" "'ascii' codec can't encode character")] ∧
  out.2 = Raise (Exn "UnicodeEncodeError"
                   "'ascii' codec can't encode character").
Proof. vm_compute. done. Qed.
